(** * oauth2l: credential acquisition, token introspection and output formatting

    A shallow embedding of [oauth2l/__init__.py].  Pure helpers are Rocq
    functions; code that talks to the file system, to the apitools
    collaborators or to stdout runs in a small error-and-trace monad [M],
    so that the order of the external calls can be stated and proved. *)

From Stdlib Require Import String Ascii List ZArith Bool Lia.
From Stdlib Require Import Floats.PrimFloat.
Import ListNotations.
Set Warnings "-register-all".
Local Open Scope list_scope.
Local Open Scope string_scope.

(** ** Python values *)

(** What [json.loads] returns: None, bool, int, float, str, list, dict.  A
    dict is kept as the list of its items. *)
Inductive value : Type :=
| JNull
| JBool (b : bool)
| JInt (n : Z)
| JFloat (f : float)
| JStr (s : string)
| JArr (l : list value)
| JObj (items : list (string * value)).

(** Python's [bool(x)] (and the test of [if x] / [not x]). *)
Definition truthy (v : value) : bool :=
  match v with
  | JNull => false
  | JBool b => b
  | JInt n => negb (Z.eqb n 0)
  | JFloat f => negb (PrimFloat.eqb f PrimFloat.zero)
  | JStr s => negb (String.eqb s "")
  | JArr l => match l with [] => false | _ :: _ => true end
  | JObj items => match items with [] => false | _ :: _ => true end
  end.

(** [bool(s)] of a str. *)
Definition str_truthy (s : string) : bool := negb (String.eqb s "").

Fixpoint lookup (k : string) (items : list (string * value)) : option value :=
  match items with
  | [] => None
  | (k', v) :: rest => if String.eqb k k' then Some v else lookup k rest
  end.

(** [needle in haystack] for two str. *)
Fixpoint str_contains (needle hay : string) : bool :=
  String.prefix needle hay ||
  match hay with
  | EmptyString => false
  | String _ rest => str_contains needle rest
  end.

(** [str.lower], on the ASCII letters. *)
Definition lower_ascii (c : ascii) : ascii :=
  let n := nat_of_ascii c in
  if ((65 <=? n) && (n <=? 90))%nat then ascii_of_nat (n + 32) else c.

Fixpoint lower (s : string) : string :=
  match s with
  | EmptyString => EmptyString
  | String c rest => String (lower_ascii c) (lower rest)
  end.

(** ** ScopeExpander *)

Definition scope_prefix : string := "https://www.googleapis.com/auth/".

(** One element of the comprehension of [_ExpandScopes]. *)
Definition expand_scope (s : string) : string :=
  if String.prefix "https://" s then s else scope_prefix ++ s.

Definition _ExpandScopes (scopes : list string) : list string :=
  map expand_scope scopes.

(** ** Exceptions, events and the monad *)

(** [str] or [bytes], as [_AsText] distinguishes them. *)
Inductive text_or_bytes : Type :=
| Text (s : string)
| Bytes (b : list Byte.byte).

(** The response object of [apitools_base.MakeRequest]. *)
Record Response : Type := {
  status_code : Z;
  content : text_or_bytes
}.

(** The exceptions that can cross this module.  [ValueError] is the class
    the module itself raises for a bad configuration (unknown format, no
    scopes, unusable JSON file); [HttpError] is what
    [apitools_base.HttpError.FromResponse] builds from a response. *)
Inductive exn : Type :=
| ValueError (msg : string)
| IOError (msg : string)
| KeyError (key : string)
| AttributeError (attr : string)
| TypeError
| HttpError (response : Response)
| ExternalError (msg : string).

Definition is_ValueError (e : exn) : bool :=
  match e with ValueError _ => true | _ => false end.

Definition is_HttpError (e : exn) : bool :=
  match e with HttpError _ => true | _ => false end.

(** The dict unpacked into [GetCredentials] as [**client_info]. *)
Record ClientInfo : Type := {
  client_id : value;
  client_secret : value;
  user_agent : string
}.

(** What this module reads of an oauth2client credentials object.
    [to_json] is the value that [credentials.to_json()] returns; a
    [to_json()] that itself raises is outside this model. *)
Record Credentials : Type := {
  access_token : string;
  to_json : text_or_bytes;
  type_module : string;
  type_name : string
}.

(** Calls that leave the process, and calls of [print], in the order in
    which they happen.  [EvPrint] carries the text of one [print] call,
    which may span several lines. *)
Inductive event : Type :=
| EvOpen (path : string)
| EvGetCredentials (scopes : list string) (credentials_filename : string)
    (service_account_json_keyfile : string) (client_info : ClientInfo)
| EvRequest (url : string)
| EvRefresh (credentials : Credentials)
| EvPrint (text : string).

(** A computation either raises or returns, and leaves its events. *)
Definition M (A : Type) : Type := (exn + A) * list event.

Definition ret {A} (a : A) : M A := (inr a, []).

Definition raise {A} (e : exn) : M A := (inl e, []).

Definition bind {A B} (m : M A) (k : A -> M B) : M B :=
  match m with
  | (inl e, t) => (inl e, t)
  | (inr a, t) => let (r, t') := k a in (r, (t ++ t')%list)
  end.

(** [try: m  except BaseException as e: h e] *)
Definition catch {A} (m : M A) (h : exn -> M A) : M A :=
  match m with
  | (inl e, t) => let (r, t') := h e in (r, (t ++ t')%list)
  | (inr a, t) => (inr a, t)
  end.

(** A pure step that may raise. *)
Definition lift {A} (r : exn + A) : M A := (r, []).

(** An external call: the event is recorded, then the call's outcome. *)
Definition call {A} (ev : event) (r : exn + A) : M A := (r, [ev]).

Definition print (text : string) : M unit := (inr tt, [EvPrint text]).

Definition result {A} (m : M A) : exn + A := fst m.
Definition trace {A} (m : M A) : list event := snd m.

Declare Scope py_scope.
Delimit Scope py_scope with py.
Notation "x <- m ;; k" := (bind m (fun x => k))
  (at level 61, m at next level, right associativity) : py_scope.
Notation "' pat <- m ;; k" :=
  (bind m (fun x => match x with pat => k end))
  (at level 61, pat pattern, m at next level, right associativity) : py_scope.
Notation "m ;;; k" := (bind m (fun _ => k))
  (at level 61, right associativity) : py_scope.
Local Open Scope py_scope.

(** ** Operations on parsed JSON *)

(** [v[k]] for a str key [k]. *)
Definition getitem (v : value) (k : string) : exn + value :=
  match v with
  | JObj items =>
      match lookup k items with
      | Some x => inr x
      | None => inl (KeyError k)
      end
  | _ => inl TypeError
  end.

(** [k in v] for a str [k]. *)
Definition contains (k : string) (v : value) : exn + bool :=
  match v with
  | JObj items =>
      inr (match lookup k items with Some _ => true | None => false end)
  | JArr l =>
      inr (existsb (fun x => match x with
                             | JStr s => String.eqb s k
                             | _ => false
                             end) l)
  | JStr s => inr (str_contains k s)
  | _ => inl TypeError
  end.

(** [v.get(k, default)]: only a dict has the method. *)
Definition dict_get (v : value) (k : string) (default : value) : exn + value :=
  match v with
  | JObj items =>
      inr (match lookup k items with Some x => x | None => default end)
  | _ => inl (AttributeError "get")
  end.

(** [v == s] for a str [s]. *)
Definition eq_str (v : value) (s : string) : bool :=
  match v with
  | JStr s' => String.eqb s' s
  | _ => false
  end.

(** ** The collaborators *)

(** Everything the module calls but does not define: the file system, the
    package data, the json and codec libraries, and apitools.  One
    invocation sees one fixed world. *)
Record Env : Type := {
  (** [open(path).read()]; [inl msg] when [open] raises IOError. *)
  open_file : string -> string + string;
  expanduser : string -> string;
  path_exists : string -> bool;
  (** [pkgutil.get_data('apitools.data', 'apitools_client_secrets.json')]:
      it raises, or returns [None] (no loader for the package), or the
      bytes of the resource. *)
  get_data : exn + option (list Byte.byte);
  (** [b.decode('utf8')]; [inl msg] for a UnicodeDecodeError, which is a
      ValueError. *)
  utf8_decode : list Byte.byte -> string + string;
  (** [json.loads]; [inl msg] when it raises ValueError.  Its other
      failures (RecursionError on very deep nesting) are outside this
      model. *)
  json_loads : string -> string + value;
  (** [json.dumps(data, sort_keys=True, indent=.., separators=..)]. *)
  json_dumps : option nat -> string * string -> value -> string;
  (** [apitools_base.GetCredentials('oauth2l', scopes, ...)]. *)
  GetCredentials :
    list string -> string -> string -> ClientInfo -> exn + Credentials;
  (** [apitools_base.MakeRequest(GetHttp(), Request(url))]. *)
  MakeRequest : string -> exn + Response;
  (** [credentials.refresh(http)]: the credentials after the call. *)
  refresh : Credentials -> exn + Credentials;
  (** [str(e)] for the exceptions this module does not build itself. *)
  exn_str : exn -> string
}.

(** The namespace argparse hands to the command handlers;
    [arg_access_token] is its [access_token], renamed apart from the
    attribute of the credentials. *)
Inductive Command : Type := CmdFetch | CmdHeader | CmdInfo | CmdTest.

Record Args : Type := {
  command : Command;
  credentials_filename : string;
  json : string;
  credentials_format : string;
  scope : list string;
  format : string;
  arg_access_token : string
}.

Definition command_name (c : Command) : string :=
  match c with
  | CmdFetch => "fetch"
  | CmdHeader => "header"
  | CmdInfo => "info"
  | CmdTest => "test"
  end.

Definition OK : Z := 200.
Definition BAD_REQUEST : Z := 400.

Definition _OAUTH2_TOKENINFO_TEMPLATE (access_token : string) : string :=
  "https://www.googleapis.com/oauth2/v2/tokeninfo" ++
  "?access_token=" ++ access_token.

Definition from_ValueError {A} (r : string + A) : exn + A :=
  match r with
  | inl msg => inl (ValueError msg)
  | inr a => inr a
  end.

Definition from_IOError {A} (r : string + A) : exn + A :=
  match r with
  | inl msg => inl (IOError msg)
  | inr a => inr a
  end.

Section Program.

Variable env : Env.

Definition loads (s : string) : exn + value :=
  from_ValueError (json_loads env s).

Definition open_read (path : string) : M string :=
  call (EvOpen path) (from_IOError (open_file env path)).

Definition GetDefaultClientInfo : M ClientInfo :=
  client_secrets_json <-
    lift (match get_data env with
          | inl e => inl e
          | inr None => inl (AttributeError "decode")
          | inr (Some b) => from_ValueError (utf8_decode env b)
          end) ;;
  parsed <- lift (loads client_secrets_json) ;;
  client_secrets <- lift (getitem parsed "installed") ;;
  cid <- lift (getitem client_secrets "client_id") ;;
  csecret <- lift (getitem client_secrets "client_secret") ;;
  ret {| client_id := cid;
         client_secret := csecret;
         user_agent := "apitools/0.2 oauth2l/0.1" |}.

Definition GetClientInfoFromFlags (client_secrets : string) : M ClientInfo :=
  if str_truthy client_secrets then
    let client_secrets_path := expanduser env client_secrets in
    if negb (path_exists env client_secrets_path) then
      raise (ValueError ("Cannot find file: " ++ client_secrets))
    else
      text <- open_read client_secrets_path ;;
      parsed <- lift (loads text) ;;
      installed <- lift (contains "installed" parsed) ;;
      if negb installed then
        raise (ValueError "Provided client ID must be for an installed app")
      else
        client_secrets <- lift (getitem parsed "installed") ;;
        cid <- lift (getitem client_secrets "client_id") ;;
        csecret <- lift (getitem client_secrets "client_secret") ;;
        ret {| client_id := cid;
               client_secret := csecret;
               user_agent := "apitools/0.2 oauth2l/0.1" |}
  else GetDefaultClientInfo.

Definition _PrettyJson (data : value) : string :=
  json_dumps env (Some 4%nat) (",", ": ") data.

Definition _CompactJson (data : value) : string :=
  json_dumps env None (",", ":") data.

Definition _AsText (text_or_bytes : text_or_bytes) : exn + string :=
  match text_or_bytes with
  | Bytes b => from_ValueError (utf8_decode env b)
  | Text s => inr s
  end.

(** [textwrap.dedent] finds no common indentation in the four lines of
    the 'pretty' template (two of them start in the first column), so the
    joined template is formatted as it stands. *)
Definition _Format (fmt : string) (credentials : Credentials) : exn + string :=
  if String.eqb fmt "bare" then
    inr (access_token credentials)
  else if String.eqb fmt "header" then
    inr ("Authorization: Bearer " ++ access_token credentials)
  else if String.eqb fmt "json" then
    match _AsText (to_json credentials) with
    | inl e => inl e
    | inr text =>
        match loads text with
        | inl e => inl e
        | inr data => inr (_PrettyJson data)
        end
    end
  else if String.eqb fmt "json_compact" then
    match _AsText (to_json credentials) with
    | inl e => inl e
    | inr text =>
        match loads text with
        | inl e => inl e
        | inr data => inr (_CompactJson data)
        end
    end
  else if String.eqb fmt "pretty" then
    inr ("Fetched credentials of type:" ++ String "010"
         ("  " ++ type_module credentials ++ "." ++ type_name credentials
          ++ String "010"
         ("Access token:" ++ String "010"
         ("  " ++ access_token credentials))))
  else inl (ValueError ("Unknown format: " ++ fmt)).

Definition _FORMATS : list string :=
  ["bare"; "header"; "json"; "json_compact"; "pretty"].

Definition _GetTokenInfo (access_token : string) : M value :=
  let url := _OAUTH2_TOKENINFO_TEMPLATE access_token in
  response <- call (EvRequest url) (MakeRequest env url) ;;
  if negb (existsb (Z.eqb (status_code response)) [OK; BAD_REQUEST]) then
    raise (HttpError response)
  else if Z.eqb (status_code response) BAD_REQUEST then
    ret (JObj [])
  else
    text <- lift (_AsText (content response)) ;;
    lift (loads text).

Definition _TestToken (access_token : string) : M bool :=
  tokeninfo <- _GetTokenInfo access_token ;;
  ret (truthy tokeninfo).

Definition _ProcessJsonArgs (args : Args) : M (string * string) :=
  if negb (str_truthy (json args)) then ret ("", "")
  else
    text <- open_read (json args) ;;
    contents <-
      lift (match loads text with
            | inl (ValueError _) =>
                inl (ValueError ("Invalid JSON file: " ++ json args))
            | r => r
            end) ;;
    ty <- lift (dict_get contents "type" (JStr "")) ;;
    if eq_str ty "service_account" then ret ("", json args)
    else ret (json args, "").

(** [x or y] for an optional argument that is a str. *)
Definition or_str (x : option string) (y : string) : string :=
  match x with
  | Some s => if str_truthy s then s else y
  | None => y
  end.

(** [client_info or GetClientInfoFromFlags(client_secrets)] *)
Definition client_info_or_flags (client_info : option ClientInfo)
    (client_secrets : string) : M ClientInfo :=
  match client_info with
  | Some ci => ret ci
  | None => GetClientInfoFromFlags client_secrets
  end.

Definition _FetchCredentials (args : Args) (client_info : option ClientInfo)
    (credentials_filename' : option string) : M Credentials :=
  '(client_secrets, service_account_json_keyfile) <- _ProcessJsonArgs args ;;
  client_info <- client_info_or_flags client_info client_secrets ;;
  let scopes := _ExpandScopes (scope args) in
  match scopes with
  | [] => raise (ValueError "No scopes provided")
  | _ :: _ =>
      let credentials_filename :=
        or_str credentials_filename' (credentials_filename args) in
      credentials <-
        call (EvGetCredentials scopes credentials_filename
                service_account_json_keyfile client_info)
             (GetCredentials env scopes credentials_filename
                service_account_json_keyfile client_info) ;;
      valid <- _TestToken (access_token credentials) ;;
      if negb valid then
        call (EvRefresh credentials) (refresh env credentials)
      else ret credentials
  end.

(** The handlers return Python's [None] ([None] here) or an int. *)
Definition _Fetch (args : Args) : M (option Z) :=
  credentials <- _FetchCredentials args None None ;;
  text <- lift (_Format (lower (credentials_format args)) credentials) ;;
  print text ;;;
  ret None.

Definition _Header (args : Args) : M (option Z) :=
  credentials <- _FetchCredentials args None None ;;
  text <- lift (_Format "header" credentials) ;;
  print text ;;;
  ret None.

Definition _Info (args : Args) : M (option Z) :=
  tokeninfo <- _GetTokenInfo (arg_access_token args) ;;
  if negb (truthy tokeninfo) then ret (Some 1%Z)
  else if String.eqb (format args) "json" then
    print (_PrettyJson tokeninfo) ;;; ret None
  else
    print (_CompactJson tokeninfo) ;;; ret None.

Definition _Test (args : Args) : M (option Z) :=
  valid <- _TestToken (arg_access_token args) ;;
  ret (Some (1 - (if valid then 1 else 0))%Z).

(** [args.func], set per subcommand by [set_defaults]. *)
Definition func (args : Args) : M (option Z) :=
  match command args with
  | CmdFetch => _Fetch args
  | CmdHeader => _Header args
  | CmdInfo => _Info args
  | CmdTest => _Test args
  end.

Definition str_exn (e : exn) : string :=
  match e with
  | ValueError msg => msg
  | _ => exn_str env e
  end.

(** [main], from the parsed arguments on. *)
Definition main (args : Args) : M (option Z) :=
  catch (func args)
    (fun e =>
       print ("Error encountered in " ++ command_name (command args)
              ++ " operation: " ++ str_exn e) ;;;
       ret (Some 1%Z)).

End Program.

(** [sys.exit(code)]: [None] is exit status 0. *)
Definition exit_status (code : option Z) : Z :=
  match code with
  | None => 0
  | Some n => n
  end.

(** What was written to stdout: the text of each [print] call, in order.
    One element is one call, not one line: the 'pretty' format is four
    lines in a single call. *)
Fixpoint stdout (t : list event) : list string :=
  match t with
  | [] => []
  | EvPrint text :: rest => text :: stdout rest
  | _ :: rest => stdout rest
  end.

(** [sys.exit(main(sys.argv))]: the exit status of the process.  [main]
    catches every exception, so the second branch is never taken
    (see [main_returns]). *)
Definition process_exit (env : Env) (args : Args) : Z :=
  match result (main env args) with
  | inr code => exit_status code
  | inl _ => 1
  end.

(** No collaborator beyond the local file system was contacted. *)
Definition no_network_call (t : list event) : bool :=
  forallb (fun ev => match ev with
                     | EvOpen _ | EvPrint _ => true
                     | EvGetCredentials _ _ _ _ | EvRequest _ | EvRefresh _ => false
                     end) t.

(** ** A concrete world

    One instance of the collaborators, on which the statements below are
    exercised: a client-secrets file without id, a file that is not JSON,
    a cache that yields a live or a stale credential depending on the
    cache file name, and a token-info endpoint that knows one live token
    and is unavailable for another. *)
Module World.

Definition dq : string := String (ascii_of_nat 34) "".

Definition quoted (s : string) : string := dq ++ s ++ dq.

(** [{"installed": {}}]: client secrets without id and secret. *)
Definition secrets_without_id : string :=
  "{" ++ quoted "installed" ++ ": {}}".

(** Package data standing for the apitools default client secrets. *)
Definition default_secrets : string :=
  "{" ++ quoted "installed" ++ ": {" ++
  quoted "client_id" ++ ": " ++ quoted "client-id.apps" ++ ", " ++
  quoted "client_secret" ++ ": " ++ quoted "client-secret" ++ "}}".

(** [{"email": "user@gmail.com", "expires_in": 3520}] *)
Definition tokeninfo_body : string :=
  "{" ++ quoted "email" ++ ": " ++ quoted "user@gmail.com" ++ ", " ++
  quoted "expires_in" ++ ": 3520}".

Definition tokeninfo : value :=
  JObj [("email", JStr "user@gmail.com"); ("expires_in", JInt 3520)].

Definition files (path : string) : string + string :=
  if String.eqb path "client_secrets.json" then inr secrets_without_id
  else if String.eqb path "broken.json" then inr "{"
  else inl ("No such file or directory: " ++ path).

Definition parse (text : string) : string + value :=
  if String.eqb text secrets_without_id then
    inr (JObj [("installed", JObj [])])
  else if String.eqb text default_secrets then
    inr (JObj [("installed",
                JObj [("client_id", JStr "client-id.apps");
                      ("client_secret", JStr "client-secret")])])
  else if String.eqb text tokeninfo_body then inr tokeninfo
  else inl "No JSON object could be decoded".

Definition dump (indent : option nat) (separators : string * string)
    (data : value) : string :=
  match indent with
  | Some _ => "<pretty JSON>"
  | None => "<compact JSON>"
  end.

Definition credentials_for (token : string) : Credentials :=
  {| access_token := token;
     to_json := Text "{}";
     type_module := "oauth2client.client";
     type_name := "OAuth2Credentials" |}.

Definition store (scopes : list string) (credentials_filename keyfile : string)
    (client_info : ClientInfo) : exn + Credentials :=
  if String.eqb credentials_filename "stale.dat"
  then inr (credentials_for "ya29.stale")
  else inr (credentials_for "ya29.live").

Definition endpoint (url : string) : exn + Response :=
  if String.eqb url (_OAUTH2_TOKENINFO_TEMPLATE "ya29.live") then
    inr {| status_code := 200; content := Text tokeninfo_body |}
  else if String.eqb url (_OAUTH2_TOKENINFO_TEMPLATE "ya29.unavailable") then
    inr {| status_code := 503; content := Text "Service Unavailable" |}
  else
    inr {| status_code := 400; content := Text "invalid_token" |}.

Definition env : Env :=
  {| open_file := files;
     expanduser := fun path => path;
     path_exists := fun path => match files path with
                                | inr _ => true
                                | inl _ => false
                                end;
     get_data := inr (Some (list_byte_of_string default_secrets));
     utf8_decode := fun b => inr (string_of_list_byte b);
     json_loads := parse;
     json_dumps := dump;
     GetCredentials := store;
     MakeRequest := endpoint;
     refresh := fun c => inr (credentials_for "ya29.fresh");
     exn_str := fun _ => "<str(e)>" |}.

Definition default_info : ClientInfo :=
  {| client_id := JStr "client-id.apps";
     client_secret := JStr "client-secret";
     user_agent := "apitools/0.2 oauth2l/0.1" |}.

Definition args (c : Command) (json_file : string) (scopes : list string)
    (token : string) : Args :=
  {| command := c;
     credentials_filename := "";
     json := json_file;
     credentials_format := "pretty";
     scope := scopes;
     format := "json";
     arg_access_token := token |}.

End World.

(** Only files were opened. *)
Definition only_opens (t : list event) : bool :=
  forallb (fun ev => match ev with EvOpen _ => true | _ => false end) t.

(** The credentials handed to [refresh], in order. *)
Fixpoint refreshed (t : list event) : list Credentials :=
  match t with
  | [] => []
  | EvRefresh c :: rest => c :: refreshed rest
  | _ :: rest => refreshed rest
  end.

(** ** A second world: key files

    A service-account key, and installed-app client secrets kept under the
    home directory, which [expanduser] resolves. *)
Module Keys.

Definition service_key : string :=
  "{" ++ World.quoted "type" ++ ": " ++ World.quoted "service_account" ++ "}".

Definition installed_secrets : string :=
  "{" ++ World.quoted "installed" ++ ": {" ++
  World.quoted "client_id" ++ ": " ++ World.quoted "my-id" ++ ", " ++
  World.quoted "client_secret" ++ ": " ++ World.quoted "my-secret" ++ "}}".

Definition files (path : string) : string + string :=
  if String.eqb path "service.json" then inr service_key
  else if String.eqb path "~/installed.json" then inr installed_secrets
  else if String.eqb path "/home/user/installed.json" then inr installed_secrets
  else if String.eqb path "list.json" then inr "[]"
  else World.files path.

Definition parse (text : string) : string + value :=
  if String.eqb text service_key then
    inr (JObj [("type", JStr "service_account")])
  else if String.eqb text installed_secrets then
    inr (JObj [("installed",
                JObj [("client_id", JStr "my-id");
                      ("client_secret", JStr "my-secret")])])
  else if String.eqb text "[]" then inr (JArr [])
  else World.parse text.

Definition home (path : string) : string :=
  if String.prefix "~/" path
  then "/home/user/" ++ substring 2 (String.length path - 2) path
  else path.

Definition env : Env :=
  {| open_file := files;
     expanduser := home;
     path_exists := fun path => match files path with
                                | inr _ => true
                                | inl _ => false
                                end;
     get_data := get_data World.env;
     utf8_decode := utf8_decode World.env;
     json_loads := parse;
     json_dumps := World.dump;
     GetCredentials := World.store;
     MakeRequest := World.endpoint;
     refresh := refresh World.env;
     exn_str := exn_str World.env |}.

Definition my_info : ClientInfo :=
  {| client_id := JStr "my-id";
     client_secret := JStr "my-secret";
     user_agent := "apitools/0.2 oauth2l/0.1" |}.

End Keys.

(** * Properties *)

(** ** ScopeExpander *)

Lemma expand_scope_qualified (s : string) :
  String.prefix "https://" (expand_scope s) = true.
Proof.
  unfold expand_scope.
  destruct (String.prefix "https://" s) eqn:E; [exact E | reflexivity].
Qed.

Lemma expand_scope_fixed (s : string) :
  String.prefix "https://" s = true -> expand_scope s = s.
Proof. intros H. unfold expand_scope. now rewrite H. Qed.

(** C8: [_ExpandScopes] keeps the length and the order of its argument;
    the element at each position is the input element itself when that
    starts with 'https://', and 'https://www.googleapis.com/auth/'
    followed by the input element otherwise.  The function is a pure
    function of its argument (it does not run in [M]). *)
Theorem ExpandScopes_pointwise (scopes : list string) :
  length (_ExpandScopes scopes) = length scopes /\
  forall i : nat,
    nth_error (_ExpandScopes scopes) i =
    option_map
      (fun s => if String.prefix "https://" s then s
                else "https://www.googleapis.com/auth/" ++ s)
      (nth_error scopes i).
Proof.
  split.
  - apply length_map.
  - intros i. unfold _ExpandScopes. now rewrite nth_error_map.
Qed.

(** C9: expanding twice is expanding once, and every expanded scope
    starts with 'https://'. *)
Theorem ExpandScopes_idempotent (s : list string) :
  _ExpandScopes (_ExpandScopes s) = _ExpandScopes s /\
  Forall (fun x => String.prefix "https://" x = true) (_ExpandScopes s).
Proof.
  unfold _ExpandScopes. split.
  - rewrite map_map. apply map_ext. intros a.
    apply expand_scope_fixed, expand_scope_qualified.
  - apply Forall_map, Forall_forall. intros x _.
    apply expand_scope_qualified.
Qed.

(** ** OutputFormatter *)

Lemma not_in_FORMATS (fmt : string) :
  ~ In fmt _FORMATS ->
  String.eqb fmt "bare" = false /\ String.eqb fmt "header" = false /\
  String.eqb fmt "json" = false /\ String.eqb fmt "json_compact" = false /\
  String.eqb fmt "pretty" = false.
Proof.
  intros H. repeat split; apply String.eqb_neq; intros ->;
    apply H; simpl; tauto.
Qed.

(** C4: 'header' renders 'Authorization: Bearer ' followed by the access
    token, 'bare' renders the access token alone, and a kind outside
    bare, header, json, json_compact, pretty raises ValueError (the
    module's configuration error). *)
Theorem Format_header_bare_unknown (env : Env) (c : Credentials) :
  _Format env "header" c = inr ("Authorization: Bearer " ++ access_token c) /\
  _Format env "bare" c = inr (access_token c) /\
  forall fmt : string,
    ~ In fmt _FORMATS ->
    _Format env fmt c = inl (ValueError ("Unknown format: " ++ fmt)).
Proof.
  repeat split.
  intros fmt H.
  destruct (not_in_FORMATS fmt H) as (B & Hd & J & JC & P).
  unfold _Format. now rewrite B, Hd, J, JC, P.
Qed.

Lemma Format_header_bare_unknown_witness :
  _Format World.env "xml" (World.credentials_for "ya29.live") =
  inl (ValueError "Unknown format: xml").
Proof.
  apply (proj2 (proj2 (Format_header_bare_unknown World.env
                         (World.credentials_for "ya29.live")))).
  simpl. intros H; repeat destruct H as [H | H]; try discriminate H; exact H.
Defined.

(** ** TokenValidator *)

Lemma GetTokenInfo_trace (env : Env) (tok : string) :
  trace (_GetTokenInfo env tok) = [EvRequest (_OAUTH2_TOKENINFO_TEMPLATE tok)].
Proof.
  unfold _GetTokenInfo, call.
  destruct (MakeRequest env _) as [e | r]; [reflexivity |].
  cbn [bind].
  destruct (negb _); [reflexivity |].
  destruct (Z.eqb _ _); [reflexivity |].
  unfold lift; cbn [bind].
  destruct (_AsText env _) as [e | text]; [reflexivity |].
  destruct (loads env text); reflexivity.
Qed.



Lemma truthy_mapping (items : list (string * value)) :
  truthy (JObj items) = true <-> items <> [].
Proof.
  destruct items; simpl; split; intros H; congruence.
Qed.

Lemma TestToken_result (env : Env) (tok : string) :
  result (_TestToken env tok) =
  match result (_GetTokenInfo env tok) with
  | inl e => inl e
  | inr tokeninfo => inr (truthy tokeninfo)
  end.
Proof.
  unfold _TestToken.
  destruct (_GetTokenInfo env tok) as [[e | ti] t]; reflexivity.
Qed.

Lemma TestToken_trace (env : Env) (tok : string) :
  trace (_TestToken env tok) = [EvRequest (_OAUTH2_TOKENINFO_TEMPLATE tok)].
Proof.
  rewrite <- (GetTokenInfo_trace env tok). unfold _TestToken.
  destruct (_GetTokenInfo env tok) as [[e | ti] t]; cbn; [reflexivity|].
  apply app_nil_r.
Qed.

(** ** CommandDispatcher *)

Lemma main_returns (env : Env) (args : Args) :
  exists code, result (main env args) = inr code.
Proof.
  unfold main. destruct (func env args) as [[e | code] t]; cbn; eauto.
Qed.

(** What one introspection leaves behind, whatever it answers. *)
Ltac introspect env tok ti t E :=
  let Ht := fresh "Ht" in
  pose proof (GetTokenInfo_trace env tok) as Ht;
  destruct (_GetTokenInfo env tok) as [[? | ti] t] eqn:E;
  cbn [trace snd] in Ht; subst t.

(** Whatever a handler raises, [main] prints its message for it and
    returns 1. *)
Lemma main_reports_error (env : Env) (args : Args) (e : exn)
    (t : list event) :
  func env args = (inl e, t) ->
  main env args =
  (inr (Some 1%Z),
   (t ++ [EvPrint ("Error encountered in " ++ command_name (command args)
                   ++ " operation: " ++ str_exn env e)])%list).
Proof. intros H. unfold main. now rewrite H. Qed.

(** C5: the test command exits with 0 exactly when the introspection of
    its token returns a non-empty result and with 1 otherwise; it prints
    nothing whether the result is empty or not; [_TestToken] is true
    exactly when the introspection result is non-empty. *)
Theorem test_command_exit (env : Env) (args : Args) :
  command args = CmdTest ->
  (forall tokeninfo : value,
     result (_GetTokenInfo env (arg_access_token args)) = inr tokeninfo ->
     process_exit env args = (if truthy tokeninfo then 0 else 1)%Z /\
     stdout (trace (main env args)) = [] /\
     result (_TestToken env (arg_access_token args)) = inr (truthy tokeninfo)) /\
  (forall items : list (string * value),
     result (_GetTokenInfo env (arg_access_token args)) = inr (JObj items) ->
     (process_exit env args = 0%Z <-> items <> [])) /\
  (process_exit env args = 0%Z <->
   exists tokeninfo : value,
     result (_GetTokenInfo env (arg_access_token args)) = inr tokeninfo /\
     truthy tokeninfo = true) /\
  (process_exit env args <> 0%Z -> process_exit env args = 1%Z).
Proof.
  intros Hcmd.
  assert (Hbool : forall tokeninfo : value,
     result (_GetTokenInfo env (arg_access_token args)) = inr tokeninfo ->
     process_exit env args = (if truthy tokeninfo then 0 else 1)%Z /\
     stdout (trace (main env args)) = [] /\
     result (_TestToken env (arg_access_token args)) = inr (truthy tokeninfo)).
  { intros tokeninfo H. rewrite TestToken_result, H.
    unfold process_exit, main, func, _Test, _TestToken. rewrite Hcmd.
    introspect env (arg_access_token args) ti t E; [discriminate |].
    cbn in H. injection H as ->. cbn.
    destruct (truthy tokeninfo); auto. }
  assert (Hexit : process_exit env args = 0%Z \/ process_exit env args = 1%Z).
  { unfold process_exit, main, func, _Test, _TestToken. rewrite Hcmd.
    destruct (_GetTokenInfo env (arg_access_token args)) as [[e | ti] t];
      cbn; [now right |].
    destruct (truthy ti); cbn; auto. }
  assert (Herr : forall e : exn,
     result (_GetTokenInfo env (arg_access_token args)) = inl e ->
     process_exit env args = 1%Z).
  { intros e. unfold process_exit, main, func, _Test, _TestToken, result.
    rewrite Hcmd.
    destruct (_GetTokenInfo env (arg_access_token args)) as [[e' | ti] t];
      cbn; [reflexivity | discriminate]. }
  split; [exact Hbool |]. split; [| split].
  - intros items H. destruct (Hbool _ H) as (Hx & _). rewrite Hx.
    destruct items; cbn; split; congruence.
  - split.
    + intros H0.
      destruct (result (_GetTokenInfo env (arg_access_token args)))
        as [e | ti] eqn:E.
      * rewrite (Herr e eq_refl) in H0. discriminate.
      * exists ti. split; [reflexivity |].
        destruct (Hbool ti eq_refl) as (Hx & _).
        destruct (truthy ti); [reflexivity | congruence].
    + intros (ti & Hti & Htrue). destruct (Hbool ti Hti) as (Hx & _).
      now rewrite Htrue in Hx.
  - destruct Hexit; [congruence | auto].
Qed.

Lemma test_command_exit_witness :
  process_exit World.env (World.args CmdTest "" [] "ya29.live") = 0%Z /\
  stdout (trace (main World.env (World.args CmdTest "" [] "ya29.live"))) = [] /\
  result (_TestToken World.env "ya29.live") = inr true.
Proof.
  exact (proj1 (test_command_exit World.env
                  (World.args CmdTest "" [] "ya29.live") eq_refl)
           World.tokeninfo eq_refl).
Defined.



(** ** CredentialAcquirer *)

Lemma ProcessJsonArgs_no_network (env : Env) (args : Args) :
  no_network_call (trace (_ProcessJsonArgs env args)) = true.
Proof.
  unfold _ProcessJsonArgs, open_read, call, lift.
  destruct (negb (str_truthy (json args))); [reflexivity |].
  destruct (from_IOError (open_file env (json args))) as [e | text];
    [reflexivity |].
  cbn [bind].
  destruct (loads env text) as [[] | contents]; try reflexivity.
  destruct (dict_get contents "type" (JStr "")) as [e | ty]; [reflexivity |].
  destruct (eq_str ty "service_account"); reflexivity.
Qed.

Lemma GetDefaultClientInfo_trace (env : Env) :
  trace (GetDefaultClientInfo env) = [].
Proof.
  unfold GetDefaultClientInfo, lift.
  destruct (match get_data env with
            | inl e => inl e
            | inr (Some b) => from_ValueError (utf8_decode env b)
            | inr None => inl (AttributeError "decode")
            end) as [e | text]; [reflexivity |].
  cbn [bind].
  destruct (loads env text) as [e | parsed]; [reflexivity |]. cbn [bind].
  destruct (getitem parsed "installed") as [e | inst]; [reflexivity |].
  cbn [bind].
  destruct (getitem inst "client_id") as [e | cid]; [reflexivity |].
  cbn [bind].
  destruct (getitem inst "client_secret") as [e | cs]; reflexivity.
Qed.

Lemma GetClientInfoFromFlags_no_network (env : Env) (client_secrets : string) :
  no_network_call (trace (GetClientInfoFromFlags env client_secrets)) = true.
Proof.
  unfold GetClientInfoFromFlags.
  destruct (str_truthy client_secrets);
    [| now rewrite GetDefaultClientInfo_trace].
  destruct (negb (path_exists env _)); [reflexivity |].
  unfold open_read, call, lift.
  destruct (from_IOError (open_file env _)) as [e | text]; [reflexivity |].
  cbn [bind].
  destruct (loads env text) as [e | parsed]; [reflexivity |]. cbn [bind].
  destruct (contains "installed" parsed) as [e | b]; [reflexivity |].
  cbn [bind]. destruct (negb b); [reflexivity |].
  destruct (getitem parsed "installed") as [e | inst]; [reflexivity |].
  cbn [bind].
  destruct (getitem inst "client_id") as [e | cid]; [reflexivity |].
  cbn [bind].
  destruct (getitem inst "client_secret") as [e | cs]; reflexivity.
Qed.

Lemma client_info_or_flags_no_network (env : Env) (ci : option ClientInfo)
    (client_secrets : string) :
  no_network_call (trace (client_info_or_flags env ci client_secrets)) = true.
Proof.
  destruct ci; [reflexivity | apply GetClientInfoFromFlags_no_network].
Qed.

Lemma no_network_call_app (t t' : list event) :
  no_network_call (t ++ t') = no_network_call t && no_network_call t'.
Proof. apply forallb_app. Qed.

(** C1: once the credential store has returned a credential, the first
    thing that happens is the introspection of its access token.  If the
    introspection returns an empty result, refresh is called and whatever
    it yields is returned, with no further introspection; if the result is
    not empty, the credential is returned as it came and refresh is not
    called; if the introspection raises, refresh is not called either. *)
Theorem FetchCredentials_validates (env : Env) (args : Args)
    (ci : option ClientInfo) (cf : option string)
    (secrets keyfile : string) (info : ClientInfo) (cred : Credentials)
    (t1 t2 : list event) :
  _ProcessJsonArgs env args = (inr (secrets, keyfile), t1) ->
  client_info_or_flags env ci secrets = (inr info, t2) ->
  scope args <> [] ->
  GetCredentials env (_ExpandScopes (scope args))
    (or_str cf (credentials_filename args)) keyfile info = inr cred ->
  let acquired :=
    (t1 ++ t2 ++
     [EvGetCredentials (_ExpandScopes (scope args))
        (or_str cf (credentials_filename args)) keyfile info])%list in
  let introspection :=
    EvRequest (_OAUTH2_TOKENINFO_TEMPLATE (access_token cred)) in
  no_network_call (t1 ++ t2) = true /\
  (forall tokeninfo : value,
     result (_GetTokenInfo env (access_token cred)) = inr tokeninfo ->
     truthy tokeninfo = false ->
     _FetchCredentials env args ci cf =
     (refresh env cred, (acquired ++ [introspection; EvRefresh cred])%list)) /\
  (forall tokeninfo : value,
     result (_GetTokenInfo env (access_token cred)) = inr tokeninfo ->
     truthy tokeninfo = true ->
     _FetchCredentials env args ci cf =
     (inr cred, (acquired ++ [introspection])%list)) /\
  (forall e : exn,
     result (_GetTokenInfo env (access_token cred)) = inl e ->
     _FetchCredentials env args ci cf =
     (inl e, (acquired ++ [introspection])%list)).
Proof.
  intros Hjson Hinfo Hscope Hcred acquired introspection.
  split.
  { rewrite no_network_call_app.
    pose proof (ProcessJsonArgs_no_network env args) as H1.
    pose proof (client_info_or_flags_no_network env ci secrets) as H2.
    rewrite Hjson in H1. rewrite Hinfo in H2. cbn [trace snd] in H1, H2.
    now rewrite H1, H2. }
  assert (Hrun : _FetchCredentials env args ci cf =
    let (r, t) :=
      (valid <- _TestToken env (access_token cred) ;;
       if negb valid then call (EvRefresh cred) (refresh env cred)
       else ret cred) in
    (r, (acquired ++ t)%list)).
  { unfold _FetchCredentials. rewrite Hjson. cbn [bind].
    rewrite Hinfo. cbn [bind].
    subst acquired. revert Hcred.
    destruct (_ExpandScopes (scope args)) as [| s l] eqn:Es.
    - destruct (scope args); [congruence | discriminate].
    - intros Hcred. unfold call at 1. rewrite Hcred. cbn [bind].
      destruct (bind (_TestToken env (access_token cred)) _) as [r t].
      now rewrite <- !app_assoc. }
  rewrite Hrun. clear Hrun.
  pose proof (TestToken_result env (access_token cred)) as Hr.
  pose proof (TestToken_trace env (access_token cred)) as Ht.
  destruct (_TestToken env (access_token cred)) as [[e | valid] t].
  all: cbn [result trace fst snd] in Hr, Ht; subst t.
  all: repeat split.
  all: try (intros tokeninfo Hti Htruth; rewrite Hti in Hr).
  all: try (intros e' He; rewrite He in Hr).
  all: try discriminate.
  all: try (injection Hr as ->).
  all: try (rewrite Htruth).
  all: reflexivity.
Qed.

Lemma FetchCredentials_validates_witness :
  _FetchCredentials World.env (World.args CmdFetch "" ["bigquery"] "")
    None (Some "stale.dat") =
  (inr (World.credentials_for "ya29.fresh"),
   [EvGetCredentials ["https://www.googleapis.com/auth/bigquery"]
      "stale.dat" "" World.default_info;
    EvRequest (_OAUTH2_TOKENINFO_TEMPLATE "ya29.stale");
    EvRefresh (World.credentials_for "ya29.stale")]).
Proof.
  refine (proj1 (proj2
    (FetchCredentials_validates World.env
       (World.args CmdFetch "" ["bigquery"] "") None (Some "stale.dat")
       "" "" World.default_info (World.credentials_for "ya29.stale") [] []
       eq_refl eq_refl _ eq_refl)) (JObj []) eq_refl eq_refl).
  discriminate.
Defined.

(** With no scope, acquisition is JSON processing, client-info
    resolution, and then the rejection. *)
Lemma FetchCredentials_empty_scope (env : Env) (args : Args)
    (ci : option ClientInfo) (cf : option string) :
  scope args = [] ->
  _FetchCredentials env args ci cf =
  ('(secrets, _) <- _ProcessJsonArgs env args ;;
   client_info_or_flags env ci secrets ;;;
   raise (ValueError "No scopes provided")).
Proof.
  intros Hs. unfold _FetchCredentials. rewrite Hs. reflexivity.
Qed.

Lemma FetchCredentials_json_error (env : Env) (args : Args)
    (ci : option ClientInfo) (cf : option string) (e : exn) :
  result (_ProcessJsonArgs env args) = inl e ->
  result (_FetchCredentials env args ci cf) = inl e.
Proof.
  unfold _FetchCredentials, result.
  destruct (_ProcessJsonArgs env args) as [[e' | [secrets keyfile]] t];
    cbn; [intros [= ->]; reflexivity | discriminate].
Qed.

Lemma FetchCredentials_client_info_error (env : Env) (args : Args)
    (ci : option ClientInfo) (cf : option string)
    (secrets keyfile : string) (e : exn) :
  result (_ProcessJsonArgs env args) = inr (secrets, keyfile) ->
  result (client_info_or_flags env ci secrets) = inl e ->
  result (_FetchCredentials env args ci cf) = inl e.
Proof.
  unfold _FetchCredentials, result.
  destruct (_ProcessJsonArgs env args) as [[e' | [secrets' keyfile']] t];
    cbn; [discriminate |].
  intros [= -> ->].
  destruct (client_info_or_flags env ci secrets) as [[e' | info] t'];
    cbn; [intros [= ->]; reflexivity | discriminate].
Qed.

Lemma FetchCredentials_no_scopes (env : Env) (args : Args)
    (ci : option ClientInfo) (cf : option string)
    (secrets keyfile : string) (info : ClientInfo) :
  scope args = [] ->
  result (_ProcessJsonArgs env args) = inr (secrets, keyfile) ->
  result (client_info_or_flags env ci secrets) = inr info ->
  result (_FetchCredentials env args ci cf) =
  inl (ValueError "No scopes provided").
Proof.
  intros Hs. rewrite (FetchCredentials_empty_scope env args ci cf Hs).
  unfold result.
  destruct (_ProcessJsonArgs env args) as [[e' | [secrets' keyfile']] t];
    cbn; [discriminate |].
  intros [= -> ->].
  destruct (client_info_or_flags env ci secrets) as [[e' | info'] t'];
    cbn; [discriminate | reflexivity].
Qed.

Lemma FetchCredentials_empty_scope_fails (env : Env) (args : Args)
    (ci : option ClientInfo) (cf : option string) :
  scope args = [] ->
  exists e, result (_FetchCredentials env args ci cf) = inl e.
Proof.
  intros Hs. rewrite (FetchCredentials_empty_scope env args ci cf Hs).
  destruct (_ProcessJsonArgs env args) as [[e | [secrets keyfile]] t];
    cbn; [eauto |].
  destruct (client_info_or_flags env ci secrets) as [[e | info] t'];
    cbn; eauto.
Qed.

Lemma FetchCredentials_empty_scope_no_network (env : Env) (args : Args)
    (ci : option ClientInfo) (cf : option string) :
  scope args = [] ->
  no_network_call (trace (_FetchCredentials env args ci cf)) = true.
Proof.
  intros Hs. rewrite (FetchCredentials_empty_scope env args ci cf Hs).
  pose proof (ProcessJsonArgs_no_network env args) as H1.
  destruct (_ProcessJsonArgs env args) as [[e | [secrets keyfile]] t];
    cbn [trace snd] in H1; cbn; [exact H1 |].
  pose proof (client_info_or_flags_no_network env ci secrets) as H2.
  destruct (client_info_or_flags env ci secrets) as [[e | info] t'];
    cbn [trace snd] in H2; cbn.
  - rewrite no_network_call_app, H1, H2. reflexivity.
  - rewrite app_nil_r, no_network_call_app, H1, H2. reflexivity.
Qed.

(** A failed acquisition is the whole of a failed fetch or header. *)
Lemma Fetch_Header_propagate (env : Env) (args : Args) (e : exn)
    (t : list event) :
  _FetchCredentials env args None None = (inl e, t) ->
  _Fetch env args = (inl e, t) /\ _Header env args = (inl e, t).
Proof.
  intros H. unfold _Fetch, _Header. rewrite H. split; reflexivity.
Qed.

Lemma str_truthy_nonempty (s : string) : s <> "" -> str_truthy s = true.
Proof.
  intros H. unfold str_truthy. apply negb_true_iff, String.eqb_neq, H.
Qed.

(** A JSON file that cannot be opened: [open] raises before anything is
    parsed. *)
Lemma ProcessJsonArgs_missing (env : Env) (args : Args) (msg : string) :
  json args <> "" ->
  open_file env (json args) = inl msg ->
  _ProcessJsonArgs env args = (inl (IOError msg), [EvOpen (json args)]).
Proof.
  intros Hj Ho. unfold _ProcessJsonArgs, open_read, call.
  rewrite (str_truthy_nonempty _ Hj), Ho. reflexivity.
Qed.

(** A JSON file that does not parse. *)
Lemma ProcessJsonArgs_malformed (env : Env) (args : Args) (text msg : string) :
  json args <> "" ->
  open_file env (json args) = inr text ->
  json_loads env text = inl msg ->
  _ProcessJsonArgs env args =
  (inl (ValueError ("Invalid JSON file: " ++ json args)), [EvOpen (json args)]).
Proof.
  intros Hj Ho Hl. unfold _ProcessJsonArgs, open_read, call.
  rewrite (str_truthy_nonempty _ Hj), Ho. cbn [negb from_IOError bind].
  unfold loads. rewrite Hl. reflexivity.
Qed.

Lemma ProcessJsonArgs_opens_first (env : Env) (args : Args) :
  json args <> "" ->
  exists t, trace (_ProcessJsonArgs env args) = EvOpen (json args) :: t.
Proof.
  intros Hj. unfold _ProcessJsonArgs, open_read, call.
  rewrite (str_truthy_nonempty _ Hj). cbn [negb].
  destruct (from_IOError (open_file env (json args))) as [e | text];
    cbn [bind]; [now exists [] |].
  destruct (bind _ _) as [r t]. now exists t.
Qed.

(** X17: with no scope argument, fetch and header fail and neither the
    credential store nor the token-info endpoint nor refresh is called.
    The acquisition stops at the first step that fails: with the error of
    JSON processing if that fails, else with the error of client-info
    resolution if that fails, and else with ValueError 'No scopes
    provided'; the trace is that of the steps that ran. *)
Theorem empty_scope_rejected (env : Env) (args : Args) :
  scope args = [] ->
  (exists (e : exn) (t : list event),
     _FetchCredentials env args None None = (inl e, t) /\
     _Fetch env args = (inl e, t) /\
     _Header env args = (inl e, t) /\
     no_network_call t = true) /\
  (forall (ci : option ClientInfo) (cf : option string),
     (exists e : exn, result (_FetchCredentials env args ci cf) = inl e) /\
     no_network_call (trace (_FetchCredentials env args ci cf)) = true) /\
  (forall (ci : option ClientInfo) (cf : option string) (e : exn),
     result (_ProcessJsonArgs env args) = inl e ->
     _FetchCredentials env args ci cf =
     (inl e, trace (_ProcessJsonArgs env args))) /\
  (forall (ci : option ClientInfo) (cf : option string)
          (secrets keyfile : string) (e : exn),
     result (_ProcessJsonArgs env args) = inr (secrets, keyfile) ->
     result (client_info_or_flags env ci secrets) = inl e ->
     _FetchCredentials env args ci cf =
     (inl e,
      (trace (_ProcessJsonArgs env args) ++
       trace (client_info_or_flags env ci secrets))%list)) /\
  (forall (ci : option ClientInfo) (cf : option string)
          (secrets keyfile : string) (info : ClientInfo),
     result (_ProcessJsonArgs env args) = inr (secrets, keyfile) ->
     result (client_info_or_flags env ci secrets) = inr info ->
     _FetchCredentials env args ci cf =
     (inl (ValueError "No scopes provided"),
      (trace (_ProcessJsonArgs env args) ++
       trace (client_info_or_flags env ci secrets))%list)).
Proof.
  intros Hs. split; [| split; [| split; [| split]]].
  - destruct (FetchCredentials_empty_scope_fails env args None None Hs)
      as [e He].
    pose proof (FetchCredentials_empty_scope_no_network env args None None Hs)
      as Hn.
    destruct (_FetchCredentials env args None None) as [r t] eqn:E.
    cbn in He, Hn. subst r. exists e, t.
    destruct (Fetch_Header_propagate env args e t E) as [Hf Hh].
    auto.
  - intros ci cf. split.
    + now apply FetchCredentials_empty_scope_fails.
    + now apply FetchCredentials_empty_scope_no_network.
  - intros ci cf e. rewrite (FetchCredentials_empty_scope env args ci cf Hs).
    destruct (_ProcessJsonArgs env args) as [[e' | [secrets keyfile]] t];
      cbn; [intros [= ->]; reflexivity | discriminate].
  - intros ci cf secrets keyfile e.
    rewrite (FetchCredentials_empty_scope env args ci cf Hs).
    destruct (_ProcessJsonArgs env args) as [[e' | [secrets' keyfile']] t];
      cbn [result trace fst snd bind]; [discriminate |].
    intros [= -> ->].
    destruct (client_info_or_flags env ci secrets) as [[e' | info] t'];
      cbn; [intros [= ->]; reflexivity | discriminate].
  - intros ci cf secrets keyfile info.
    rewrite (FetchCredentials_empty_scope env args ci cf Hs).
    destruct (_ProcessJsonArgs env args) as [[e' | [secrets' keyfile']] t];
      cbn [result trace fst snd bind]; [discriminate |].
    intros [= -> ->].
    destruct (client_info_or_flags env ci secrets) as [[e' | info'] t'];
      cbn; [discriminate |].
    intros _. now rewrite app_nil_r.
Qed.

Lemma empty_scope_rejected_witness :
  _FetchCredentials World.env (World.args CmdHeader "" [] "") None None
  = (inl (ValueError "No scopes provided"), []).
Proof.
  exact (proj2 (proj2 (proj2 (proj2 (empty_scope_rejected World.env
                         (World.args CmdHeader "" [] "") eq_refl))))
           None None "" "" World.default_info eq_refl eq_refl).
Defined.

(** C3 at a fetch or header command with no scope whose JSON file does not
    exist: the acquisition fails before the credential store, the
    token-info endpoint or refresh is contacted, but with the IOError of
    the unguarded [open] in [_ProcessJsonArgs] and not with a ValueError,
    although [GetClientInfoFromFlags] guards the same path and raises
    ValueError 'Cannot find file: ...'.  With no JSON argument the same
    commands fail with ValueError 'No scopes provided'. *)
Theorem empty_scope_missing_json_raises_IOError :
  scope (World.args CmdHeader "missing.json" [] "") = [] /\
  _Header World.env (World.args CmdHeader "missing.json" [] "") =
  (inl (IOError "No such file or directory: missing.json"),
   [EvOpen "missing.json"]) /\
  _Fetch World.env (World.args CmdFetch "missing.json" [] "") =
  (inl (IOError "No such file or directory: missing.json"),
   [EvOpen "missing.json"]) /\
  is_ValueError (IOError "No such file or directory: missing.json") = false /\
  no_network_call [EvOpen "missing.json"] = true /\
  GetClientInfoFromFlags World.env "missing.json" =
  (inl (ValueError "Cannot find file: missing.json"), []) /\
  _Header World.env (World.args CmdHeader "" [] "") =
  (inl (ValueError "No scopes provided"), []) /\
  _Fetch World.env (World.args CmdFetch "" [] "") =
  (inl (ValueError "No scopes provided"), []).
Proof. repeat split. Qed.

(** C10: with no scope, a failure of JSON processing or of client-info
    resolution is the failure of the acquisition, and 'No scopes provided'
    is raised when both succeeded; the JSON file is opened first.  A JSON
    file that cannot be opened gives the IOError of [open], one that does
    not parse gives ValueError 'Invalid JSON file: ...'. *)
Theorem json_errors_precede_scope_check (env : Env) (args : Args)
    (ci : option ClientInfo) (cf : option string) :
  scope args = [] ->
  (forall e : exn,
     result (_ProcessJsonArgs env args) = inl e ->
     result (_FetchCredentials env args ci cf) = inl e) /\
  (forall (secrets keyfile : string) (e : exn),
     result (_ProcessJsonArgs env args) = inr (secrets, keyfile) ->
     result (client_info_or_flags env ci secrets) = inl e ->
     result (_FetchCredentials env args ci cf) = inl e) /\
  (forall (secrets keyfile : string) (info : ClientInfo),
     result (_ProcessJsonArgs env args) = inr (secrets, keyfile) ->
     result (client_info_or_flags env ci secrets) = inr info ->
     result (_FetchCredentials env args ci cf) =
     inl (ValueError "No scopes provided")) /\
  (forall msg : string,
     json args <> "" ->
     open_file env (json args) = inl msg ->
     _FetchCredentials env args ci cf =
     (inl (IOError msg), [EvOpen (json args)])) /\
  (forall text msg : string,
     json args <> "" ->
     open_file env (json args) = inr text ->
     json_loads env text = inl msg ->
     _FetchCredentials env args ci cf =
     (inl (ValueError ("Invalid JSON file: " ++ json args)),
      [EvOpen (json args)])) /\
  (json args <> "" ->
   exists t, trace (_FetchCredentials env args ci cf) = EvOpen (json args) :: t).
Proof.
  intros Hs. repeat apply conj.
  - intros e. apply FetchCredentials_json_error.
  - intros secrets keyfile e. apply FetchCredentials_client_info_error.
  - intros secrets keyfile info. now apply FetchCredentials_no_scopes.
  - intros msg Hj Ho. unfold _FetchCredentials.
    now rewrite (ProcessJsonArgs_missing env args msg Hj Ho).
  - intros text msg Hj Ho Hl. unfold _FetchCredentials.
    now rewrite (ProcessJsonArgs_malformed env args text msg Hj Ho Hl).
  - intros Hj. destruct (ProcessJsonArgs_opens_first env args Hj) as [t Ht].
    unfold _FetchCredentials.
    destruct (_ProcessJsonArgs env args) as [[e | [secrets keyfile]] t0];
      cbn [trace snd] in Ht; subst t0; cbn [bind]; [now exists t |].
    destruct (bind _ _) as [r t']. cbn. now exists (t ++ t')%list.
Qed.

Lemma json_errors_precede_scope_check_witness :
  _FetchCredentials World.env (World.args CmdFetch "broken.json" [] "")
    None None =
  (inl (ValueError "Invalid JSON file: broken.json"), [EvOpen "broken.json"]).
Proof.
  refine (proj1 (proj2 (proj2 (proj2 (proj2
    (json_errors_precede_scope_check World.env
       (World.args CmdFetch "broken.json" [] "") None None eq_refl)))))
    "{" "No JSON object could be decoded" _ eq_refl eq_refl).
  discriminate.
Defined.

(** C7 at a JSON file that does not exist: [_ProcessJsonArgs] opens it
    unguarded and the acquisition raises the IOError of [open], not a
    ValueError, although [GetClientInfoFromFlags] has the guard that raises
    ValueError 'Cannot find file: ...' for the same path.  A JSON file
    that does not parse does raise ValueError. *)
Theorem missing_json_file_raises_IOError :
  _FetchCredentials World.env
    (World.args CmdFetch "missing.json" ["bigquery"] "") None None =
  (inl (IOError "No such file or directory: missing.json"),
   [EvOpen "missing.json"]) /\
  is_ValueError (IOError "No such file or directory: missing.json") = false /\
  GetClientInfoFromFlags World.env "missing.json" =
  (inl (ValueError "Cannot find file: missing.json"), []) /\
  _FetchCredentials World.env
    (World.args CmdFetch "broken.json" ["bigquery"] "") None None =
  (inl (ValueError "Invalid JSON file: broken.json"), [EvOpen "broken.json"]).
Proof. repeat split. Qed.

(** * Further properties of the module *)

(** ** What acquisition leaves in the trace *)

Lemma ProcessJsonArgs_trace (env : Env) (args : Args) :
  trace (_ProcessJsonArgs env args) =
  if str_truthy (json args) then [EvOpen (json args)] else [].
Proof.
  unfold _ProcessJsonArgs, open_read, call, lift.
  destruct (str_truthy (json args)); cbn [negb]; [| reflexivity].
  destruct (from_IOError (open_file env (json args))) as [e | text];
    [reflexivity |].
  cbn [bind].
  destruct (loads env text) as [[] | contents]; try reflexivity.
  destruct (dict_get contents "type" (JStr "")) as [e | ty]; [reflexivity |].
  destruct (eq_str ty "service_account"); reflexivity.
Qed.

Lemma GetClientInfoFromFlags_trace (env : Env) (client_secrets : string) :
  trace (GetClientInfoFromFlags env client_secrets) = [] \/
  trace (GetClientInfoFromFlags env client_secrets) =
  [EvOpen (expanduser env client_secrets)].
Proof.
  unfold GetClientInfoFromFlags.
  destruct (str_truthy client_secrets);
    [| left; apply GetDefaultClientInfo_trace].
  destruct (negb (path_exists env _)); [now left |]. right.
  unfold open_read, call, lift.
  destruct (from_IOError (open_file env _)) as [e | text]; [reflexivity |].
  cbn [bind].
  destruct (loads env text) as [e | parsed]; [reflexivity |]. cbn [bind].
  destruct (contains "installed" parsed) as [e | b]; [reflexivity |].
  cbn [bind]. destruct (negb b); [reflexivity |].
  destruct (getitem parsed "installed") as [e | inst]; [reflexivity |].
  cbn [bind].
  destruct (getitem inst "client_id") as [e | cid]; [reflexivity |].
  cbn [bind].
  destruct (getitem inst "client_secret") as [e | cs]; reflexivity.
Qed.

(** The files opened before the credential store is reached: the JSON
    argument as given, then the client secrets after [expanduser]. *)
Lemma acquisition_opens (env : Env) (args : Args) (ci : option ClientInfo)
    (secrets : string) :
  let opens := (trace (_ProcessJsonArgs env args) ++
                trace (client_info_or_flags env ci secrets))%list in
  only_opens opens = true /\ (length opens <= 2)%nat.
Proof.
  cbn zeta. rewrite ProcessJsonArgs_trace.
  assert (H : trace (client_info_or_flags env ci secrets) = [] \/
              trace (client_info_or_flags env ci secrets) =
              [EvOpen (expanduser env secrets)]).
  { destruct ci; [now left | apply GetClientInfoFromFlags_trace]. }
  destruct H as [-> | ->]; destruct (str_truthy (json args)); cbn; auto.
Qed.

Lemma only_opens_app (t t' : list event) :
  only_opens (t ++ t') = only_opens t && only_opens t'.
Proof. apply forallb_app. Qed.

(** Every run of [_FetchCredentials]: it fails while only files have been
    opened, or it reaches the credential store with expanded scopes, and
    then the store fails, or the introspection fails, or the credential is
    live and returned, or it is stale and refreshed. *)
Lemma FetchCredentials_cases (env : Env) (args : Args)
    (ci : option ClientInfo) (cf : option string) :
  exists opens : list event,
    only_opens opens = true /\ (length opens <= 2)%nat /\
    ((exists e : exn, _FetchCredentials env args ci cf = (inl e, opens)) \/
     exists (secrets kf : string) (info : ClientInfo),
       result (_ProcessJsonArgs env args) = inr (secrets, kf) /\
       result (client_info_or_flags env ci secrets) = inr info /\
       scope args <> [] /\
       let scopes := _ExpandScopes (scope args) in
       let fn := or_str cf (credentials_filename args) in
       let g := EvGetCredentials scopes fn kf info in
       ((exists e : exn,
           GetCredentials env scopes fn kf info = inl e /\
           _FetchCredentials env args ci cf = (inl e, (opens ++ [g])%list)) \/
        exists cred : Credentials,
          GetCredentials env scopes fn kf info = inr cred /\
          let r := EvRequest (_OAUTH2_TOKENINFO_TEMPLATE (access_token cred)) in
          ((exists e : exn,
              result (_TestToken env (access_token cred)) = inl e /\
              _FetchCredentials env args ci cf =
              (inl e, (opens ++ [g; r])%list)) \/
           (result (_TestToken env (access_token cred)) = inr true /\
            _FetchCredentials env args ci cf =
            (inr cred, (opens ++ [g; r])%list)) \/
           (result (_TestToken env (access_token cred)) = inr false /\
            _FetchCredentials env args ci cf =
            (refresh env cred, (opens ++ [g; r; EvRefresh cred])%list))))).
Proof.
  unfold _FetchCredentials.
  destruct (_ProcessJsonArgs env args) as [[e | [secrets kf]] t1] eqn:E1.
  { destruct (acquisition_opens env args ci "") as [Ho Hl].
    rewrite E1 in Ho, Hl. cbn [trace snd] in Ho, Hl.
    rewrite only_opens_app in Ho. apply andb_true_iff in Ho as [Ho _].
    rewrite length_app in Hl.
    exists t1. split; [exact Ho |]. split; [lia |]. left. now exists e. }
  destruct (acquisition_opens env args ci secrets) as [Ho Hl].
  rewrite E1 in Ho, Hl. cbn [trace snd] in Ho, Hl. cbn [bind].
  destruct (client_info_or_flags env ci secrets) as [[e | info] t2] eqn:E2;
    cbn [trace snd] in Ho, Hl; cbn [bind];
    exists (t1 ++ t2)%list; (split; [exact Ho |]); (split; [exact Hl |]).
  { left. now exists e. }
  destruct (_ExpandScopes (scope args)) as [| s l] eqn:Es.
  { left. exists (ValueError "No scopes provided"). cbn.
    now rewrite app_nil_r. }
  right. exists secrets, kf, info.
  split; [reflexivity |]. split; [now rewrite E2 |].
  split; [intros Hn; rewrite Hn in Es; discriminate |].
  cbn zeta.
  assert (Hfin : forall (r : exn + Credentials) (t t' : list event),
            t = (t2 ++ t')%list ->
            (r, (t1 ++ t)%list) = (r, ((t1 ++ t2) ++ t')%list)).
  { intros r t t' ->. now rewrite <- app_assoc. }
  unfold call.
  destruct (GetCredentials env (s :: l) _ kf info) as [e | cred] eqn:Eg;
    cbn [bind].
  { left. exists e. split; [reflexivity |]. now apply Hfin. }
  right. exists cred. split; [reflexivity |].
  pose proof (TestToken_trace env (access_token cred)) as Ht.
  destruct (_TestToken env (access_token cred)) as [[e | valid] t] eqn:Et;
    cbn [trace snd] in Ht; subst t; cbn [result fst bind].
  { left. exists e. split; [reflexivity |]. now apply Hfin. }
  right. destruct valid; cbn [negb ret].
  - left. split; [reflexivity |]. now apply Hfin.
  - right. split; [reflexivity |]. now apply Hfin.
Qed.

Lemma only_opens_no_event (t : list event) (ev : event) :
  only_opens t = true -> In ev t -> exists path, ev = EvOpen path.
Proof.
  unfold only_opens. rewrite forallb_forall. intros H Hin.
  specialize (H ev Hin). destruct ev; try discriminate. now eexists.
Qed.

Lemma only_opens_stdout (t : list event) :
  only_opens t = true -> stdout t = [].
Proof.
  induction t as [| ev t IH]; [reflexivity |].
  cbn. destruct ev; cbn; try discriminate. exact IH.
Qed.

Lemma only_opens_refreshed (t : list event) :
  only_opens t = true -> refreshed t = [].
Proof.
  induction t as [| ev t IH]; [reflexivity |].
  cbn. destruct ev; cbn; try discriminate. exact IH.
Qed.

Lemma stdout_app (t t' : list event) :
  stdout (t ++ t') = (stdout t ++ stdout t')%list.
Proof.
  induction t as [| ev t IH]; [reflexivity |].
  destruct ev; cbn; now rewrite IH.
Qed.

Lemma refreshed_app (t t' : list event) :
  refreshed (t ++ t') = (refreshed t ++ refreshed t')%list.
Proof.
  induction t as [| ev t IH]; [reflexivity |].
  destruct ev; cbn; now rewrite IH.
Qed.

(** Acquisition itself prints nothing. *)
Lemma FetchCredentials_silent (env : Env) (args : Args)
    (ci : option ClientInfo) (cf : option string) :
  stdout (trace (_FetchCredentials env args ci cf)) = [].
Proof.
  destruct (FetchCredentials_cases env args ci cf)
    as (opens & Ho & _ & [[e H] | (secrets & kf & info & _ & _ & _ & H)]).
  - rewrite H. now apply only_opens_stdout.
  - cbn zeta in H.
    destruct H as [(e & _ & H) | (cred & _ & [(e & _ & H) | [[_ H] | [_ H]]])];
      rewrite H; cbn [trace snd]; rewrite stdout_app, only_opens_stdout;
      auto.
Qed.

(** X1: the external calls of one acquisition come in a fixed order and at
    most once each: at most two files are opened, then the credential
    store is called, then the token-info endpoint is asked about exactly
    the access token the store returned, then that credential is
    refreshed.  The run may stop after any of these steps. *)
Theorem FetchCredentials_call_order (env : Env) (args : Args)
    (ci : option ClientInfo) (cf : option string) :
  exists opens net : list event,
    trace (_FetchCredentials env args ci cf) = (opens ++ net)%list /\
    only_opens opens = true /\ (length opens <= 2)%nat /\
    (net = [] \/
     exists (kf : string) (info : ClientInfo),
       let scopes := _ExpandScopes (scope args) in
       let fn := or_str cf (credentials_filename args) in
       let g := EvGetCredentials scopes fn kf info in
       net = [g] \/
       exists cred : Credentials,
         GetCredentials env scopes fn kf info = inr cred /\
         let r := EvRequest (_OAUTH2_TOKENINFO_TEMPLATE (access_token cred)) in
         (net = [g; r] \/ net = [g; r; EvRefresh cred])).
Proof.
  destruct (FetchCredentials_cases env args ci cf)
    as (opens & Ho & Hl & [[e H] | (secrets & kf & info & _ & _ & _ & H)]).
  - exists opens, []. rewrite H, app_nil_r. auto.
  - cbn zeta in H.
    destruct H as [(e & _ & H) | (cred & Hc & [(e & _ & H) | [[_ H] | [_ H]]])];
      rewrite H; cbn [trace snd]; eexists opens, _;
      (split; [reflexivity |]); (split; [exact Ho |]); (split; [exact Hl |]);
      right; exists kf, info; cbn zeta.
    + now left.
    + right. exists cred. auto.
    + right. exists cred. auto.
    + right. exists cred. auto.
Qed.

Lemma ProcessJsonArgs_outputs (env : Env) (args : Args)
    (secrets kf : string) :
  result (_ProcessJsonArgs env args) = inr (secrets, kf) ->
  (secrets = "" /\ (kf = "" \/ kf = json args)) \/
  (secrets = json args /\ kf = "").
Proof.
  unfold _ProcessJsonArgs, open_read, call, lift, result.
  destruct (negb (str_truthy (json args))).
  { cbn. intros [= <- <-]. auto. }
  destruct (from_IOError (open_file env (json args))) as [e | text];
    [discriminate |].
  cbn [bind].
  destruct (loads env text) as [[] | contents]; try discriminate.
  destruct (dict_get contents "type" (JStr "")) as [e | ty]; [discriminate |].
  cbn [bind].
  destruct (eq_str ty "service_account"); cbn; intros [= <- <-]; auto.
Qed.

Lemma GetDefaultClientInfo_user_agent (env : Env) (info : ClientInfo) :
  result (GetDefaultClientInfo env) = inr info ->
  user_agent info = "apitools/0.2 oauth2l/0.1".
Proof.
  unfold GetDefaultClientInfo, lift, result.
  destruct (match get_data env with
            | inl e => inl e
            | inr (Some b) => from_ValueError (utf8_decode env b)
            | inr None => inl (AttributeError "decode")
            end) as [e | text]; [discriminate |].
  cbn [bind].
  destruct (loads env text) as [e | parsed]; [discriminate |]. cbn [bind].
  destruct (getitem parsed "installed") as [e | inst]; [discriminate |].
  cbn [bind].
  destruct (getitem inst "client_id") as [e | cid]; [discriminate |].
  cbn [bind].
  destruct (getitem inst "client_secret") as [e | cs]; [discriminate |].
  cbn. now intros [= <-].
Qed.

Lemma GetClientInfoFromFlags_user_agent (env : Env) (client_secrets : string)
    (info : ClientInfo) :
  result (GetClientInfoFromFlags env client_secrets) = inr info ->
  user_agent info = "apitools/0.2 oauth2l/0.1".
Proof.
  unfold GetClientInfoFromFlags.
  destruct (str_truthy client_secrets);
    [| apply GetDefaultClientInfo_user_agent].
  destruct (negb (path_exists env _)); [discriminate |].
  unfold open_read, call, lift, result.
  destruct (from_IOError (open_file env _)) as [e | text]; [discriminate |].
  cbn [bind].
  destruct (loads env text) as [e | parsed]; [discriminate |]. cbn [bind].
  destruct (contains "installed" parsed) as [e | b]; [discriminate |].
  cbn [bind]. destruct (negb b); [discriminate |].
  destruct (getitem parsed "installed") as [e | inst]; [discriminate |].
  cbn [bind].
  destruct (getitem inst "client_id") as [e | cid]; [discriminate |].
  cbn [bind].
  destruct (getitem inst "client_secret") as [e | cs]; [discriminate |].
  cbn. now intros [= <-].
Qed.

(** X2: whenever the credential store is called, it is called with the
    expanded scopes of the arguments, which are not empty and all start
    with 'https://'; with the explicit cache file name if one is given and
    not empty, else the one of the arguments; with a key file that is
    either empty or the JSON argument; and, when the caller passed no
    client info, with the user agent 'apitools/0.2 oauth2l/0.1'. *)
Theorem GetCredentials_arguments (env : Env) (args : Args)
    (ci : option ClientInfo) (cf : option string)
    (scopes : list string) (fn kf : string) (info : ClientInfo) :
  In (EvGetCredentials scopes fn kf info)
     (trace (_FetchCredentials env args ci cf)) ->
  scopes = _ExpandScopes (scope args) /\
  scopes <> [] /\
  length scopes = length (scope args) /\
  Forall (fun s => String.prefix "https://" s = true) scopes /\
  fn = or_str cf (credentials_filename args) /\
  (kf = "" \/ kf = json args) /\
  (ci = None -> user_agent info = "apitools/0.2 oauth2l/0.1").
Proof.
  intros Hin.
  destruct (FetchCredentials_cases env args ci cf)
    as (opens & Ho & _ & [[e H] | (secrets & kf' & info' & Hj & Hi & Hs & H)]).
  { rewrite H in Hin. cbn [trace snd] in Hin.
    destruct (only_opens_no_event _ _ Ho Hin) as [path Hp]. discriminate. }
  cbn zeta in H.
  assert (Hev : EvGetCredentials scopes fn kf info =
                EvGetCredentials (_ExpandScopes (scope args))
                  (or_str cf (credentials_filename args)) kf' info').
  { destruct H as [(e & _ & H) | (cred & _ & [(e & _ & H) | [[_ H] | [_ H]]])];
      rewrite H in Hin; cbn [trace snd] in Hin;
      apply in_app_or in Hin as [Hin | Hin];
      try (destruct (only_opens_no_event _ _ Ho Hin) as [path Hp];
           discriminate);
      cbn in Hin; repeat destruct Hin as [Hin | Hin];
      try discriminate; try contradiction; now symmetry. }
  injection Hev as -> -> -> ->.
  split; [reflexivity |]. split.
  { intros Hn. destruct (scope args); [congruence | discriminate]. }
  split; [apply length_map |]. split.
  { apply Forall_map, Forall_forall. intros x _.
    apply expand_scope_qualified. }
  split; [reflexivity |]. split.
  { destruct (ProcessJsonArgs_outputs env args secrets kf' Hj)
      as [[_ Hk] | [_ Hk]]; auto. }
  intros ->. cbn in Hi.
  now apply GetClientInfoFromFlags_user_agent in Hi.
Qed.

Lemma GetCredentials_arguments_witness :
  ["https://www.googleapis.com/auth/bigquery"] =
  _ExpandScopes (scope (World.args CmdFetch "" ["bigquery"] "")) /\
  ["https://www.googleapis.com/auth/bigquery"] <> [] /\
  length ["https://www.googleapis.com/auth/bigquery"] =
  length (scope (World.args CmdFetch "" ["bigquery"] "")) /\
  Forall (fun s => String.prefix "https://" s = true)
    ["https://www.googleapis.com/auth/bigquery"] /\
  "" = or_str None
         (credentials_filename (World.args CmdFetch "" ["bigquery"] "")) /\
  ("" = "" \/ "" = json (World.args CmdFetch "" ["bigquery"] "")) /\
  (@None ClientInfo = None ->
   user_agent World.default_info = "apitools/0.2 oauth2l/0.1").
Proof.
  exact (GetCredentials_arguments World.env
           (World.args CmdFetch "" ["bigquery"] "") None None
           ["https://www.googleapis.com/auth/bigquery"] "" ""
           World.default_info (or_introl eq_refl)).
Defined.

(** X3: a credential that [_FetchCredentials] returns has either passed
    the introspection, and then nothing was refreshed, or it is what
    refresh made of a credential that failed the introspection. *)
Theorem FetchCredentials_returns_live_or_refreshed (env : Env) (args : Args)
    (ci : option ClientInfo) (cf : option string) (c : Credentials) :
  result (_FetchCredentials env args ci cf) = inr c ->
  (refreshed (trace (_FetchCredentials env args ci cf)) = [] /\
   result (_TestToken env (access_token c)) = inr true) \/
  (exists cred : Credentials,
     refreshed (trace (_FetchCredentials env args ci cf)) = [cred] /\
     result (_TestToken env (access_token cred)) = inr false /\
     refresh env cred = inr c).
Proof.
  intros Hr.
  destruct (FetchCredentials_cases env args ci cf)
    as (opens & Ho & _ & [[e H] | (secrets & kf & info & _ & _ & _ & H)]).
  { rewrite H in Hr. discriminate. }
  cbn zeta in H.
  destruct H as [(e & _ & H) | (cred & _ & [(e & _ & H) | [[Ht H] | [Ht H]]])];
    rewrite H in Hr |- *; cbn [result trace fst snd] in Hr |- *;
    try discriminate.
  - injection Hr as <-. left.
    rewrite refreshed_app, (only_opens_refreshed _ Ho). auto.
  - right. exists cred.
    rewrite refreshed_app, (only_opens_refreshed _ Ho). auto.
Qed.

Lemma FetchCredentials_returns_live_or_refreshed_witness :
  exists cred : Credentials,
    refreshed (trace (_FetchCredentials World.env
                        (World.args CmdFetch "" ["bigquery"] "")
                        None (Some "stale.dat"))) = [cred] /\
    result (_TestToken World.env (access_token cred)) = inr false /\
    refresh World.env cred = inr (World.credentials_for "ya29.fresh").
Proof.
  destruct (FetchCredentials_returns_live_or_refreshed World.env
              (World.args CmdFetch "" ["bigquery"] "")
              None (Some "stale.dat") (World.credentials_for "ya29.fresh")
              eq_refl) as [[H _] | H].
  - discriminate H.
  - exact H.
Defined.

(** ** The JSON argument *)

Lemma service_account_type (items : list (string * value)) :
  eq_str (match lookup "type" items with
          | Some x => x
          | None => JStr ""
          end) "service_account" = true <->
  lookup "type" items = Some (JStr "service_account").
Proof.
  destruct (lookup "type" items) as [[| | | | s | |] |]; cbn;
    split; try discriminate.
  - intros H. apply String.eqb_eq in H. now subst.
  - intros [= ->]. reflexivity.
Qed.

(** X4: what a successful [_ProcessJsonArgs] says about its input.  With
    no JSON argument both outputs are empty and no file is opened.
    Otherwise the file was opened and parsed to a dict, and the argument
    is returned as the service-account key file exactly when the dict's
    'type' is the str 'service_account', and as the client secrets
    otherwise; the other output is empty. *)
Theorem ProcessJsonArgs_routes (env : Env) (args : Args)
    (secrets kf : string) :
  result (_ProcessJsonArgs env args) = inr (secrets, kf) ->
  (json args = "" /\ secrets = "" /\ kf = "" /\
   trace (_ProcessJsonArgs env args) = []) \/
  (json args <> "" /\
   trace (_ProcessJsonArgs env args) = [EvOpen (json args)] /\
   exists (text : string) (items : list (string * value)),
     open_file env (json args) = inr text /\
     json_loads env text = inr (JObj items) /\
     ((lookup "type" items = Some (JStr "service_account") /\
       secrets = "" /\ kf = json args) \/
      (lookup "type" items <> Some (JStr "service_account") /\
       secrets = json args /\ kf = ""))).
Proof.
  rewrite ProcessJsonArgs_trace.
  unfold _ProcessJsonArgs, open_read, call, lift, result, str_truthy, loads.
  destruct (String.eqb_spec (json args) "") as [Hj | Hj]; cbn [negb].
  { cbn. intros [= <- <-]. left. auto. }
  intros H. right. split; [exact Hj |]. split; [reflexivity |].
  destruct (open_file env (json args)) as [msg | text] eqn:Eo;
    [discriminate |].
  cbn [from_IOError bind] in H.
  destruct (json_loads env text) as [msg | contents] eqn:El;
    [discriminate |].
  cbn [from_ValueError bind] in H.
  destruct contents as [| b | n | f | s | l | items]; try discriminate.
  exists text, items. split; [reflexivity |]. split; [exact El |].
  cbn [dict_get bind] in H.
  pose proof (service_account_type items) as Hty.
  destruct (eq_str _ "service_account"); cbn in H; injection H as <- <-.
  - left. split; [now apply Hty | auto].
  - right. split; [| auto]. intros Hl. apply Hty in Hl. discriminate.
Qed.

Lemma ProcessJsonArgs_routes_witness :
  exists (text : string) (items : list (string * value)),
    open_file Keys.env "service.json" = inr text /\
    json_loads Keys.env text = inr (JObj items) /\
    lookup "type" items = Some (JStr "service_account").
Proof.
  destruct (ProcessJsonArgs_routes Keys.env
              (World.args CmdFetch "service.json" ["bigquery"] "")
              "" "service.json" eq_refl)
    as [(H & _) | (_ & _ & text & items & Ho & Hl & [(Ht & _) | (_ & H & _)])].
  - discriminate H.
  - exists text, items. auto.
  - discriminate H.
Defined.

(** X5: a JSON argument whose file holds valid JSON that is not an object
    makes the acquisition fail with AttributeError, whatever the scopes,
    after the one open and before any other call. *)
Theorem non_object_json_AttributeError (env : Env) (args : Args)
    (ci : option ClientInfo) (cf : option string)
    (text : string) (v : value) :
  json args <> "" ->
  open_file env (json args) = inr text ->
  json_loads env text = inr v ->
  (forall items, v <> JObj items) ->
  _FetchCredentials env args ci cf =
  (inl (AttributeError "get"), [EvOpen (json args)]).
Proof.
  intros Hj Ho Hl Hv.
  unfold _FetchCredentials, _ProcessJsonArgs, open_read, call, loads.
  rewrite (str_truthy_nonempty _ Hj), Ho. cbn [negb from_IOError bind].
  rewrite Hl. cbn [from_ValueError lift bind].
  destruct v; try reflexivity. now destruct (Hv items).
Qed.

Lemma non_object_json_AttributeError_witness :
  _FetchCredentials Keys.env (World.args CmdFetch "list.json" ["drive"] "")
    None None =
  (inl (AttributeError "get"), [EvOpen "list.json"]).
Proof.
  refine (non_object_json_AttributeError Keys.env
            (World.args CmdFetch "list.json" ["drive"] "") None None
            "[]" (JArr []) _ eq_refl eq_refl _); discriminate.
Defined.

Lemma ProcessJsonArgs_parsed (env : Env) (args : Args) (text : string)
    (items : list (string * value)) :
  json args <> "" ->
  open_file env (json args) = inr text ->
  json_loads env text = inr (JObj items) ->
  _ProcessJsonArgs env args =
  (inr (if eq_str (match lookup "type" items with
                   | Some x => x
                   | None => JStr ""
                   end) "service_account"
        then ("", json args) else (json args, "")),
   [EvOpen (json args)]).
Proof.
  intros Hj Ho Hl. unfold _ProcessJsonArgs, open_read, call, loads.
  rewrite (str_truthy_nonempty _ Hj), Ho. cbn [negb from_IOError bind].
  rewrite Hl. cbn [from_ValueError lift bind dict_get].
  destruct (eq_str _ "service_account"); reflexivity.
Qed.

(** Once the JSON argument is processed and the client info resolved, a
    non-empty scope list takes the run to the credential store; no file
    is opened from then on. *)
Lemma FetchCredentials_reaches_store (env : Env) (args : Args)
    (ci : option ClientInfo) (cf : option string)
    (secrets kf : string) (info : ClientInfo) (t1 t2 : list event) :
  _ProcessJsonArgs env args = (inr (secrets, kf), t1) ->
  client_info_or_flags env ci secrets = (inr info, t2) ->
  scope args <> [] ->
  exists rest : list event,
    trace (_FetchCredentials env args ci cf) =
    (t1 ++ t2 ++
     EvGetCredentials (_ExpandScopes (scope args))
       (or_str cf (credentials_filename args)) kf info :: rest)%list /\
    forall path, ~ In (EvOpen path) rest.
Proof.
  intros Hjson Hinfo Hscope.
  unfold _FetchCredentials. rewrite Hjson. cbn [bind].
  rewrite Hinfo. cbn [bind].
  destruct (_ExpandScopes (scope args)) as [| s l] eqn:Es.
  { destruct (scope args); [congruence | discriminate]. }
  unfold call.
  destruct (GetCredentials env (s :: l) _ kf info) as [e | cred];
    cbn [bind trace snd].
  { exists []. split; [reflexivity | intros p []]. }
  pose proof (TestToken_trace env (access_token cred)) as Ht.
  destruct (_TestToken env (access_token cred)) as [[e | valid] t];
    cbn [trace snd] in Ht; subst t; cbn [bind trace snd app].
  { eexists. split; [reflexivity |].
    intros p [H | []]. discriminate. }
  destruct valid; cbn [negb ret trace snd app];
    eexists; (split; [reflexivity |]);
    cbn; intros p H; repeat destruct H as [H | H];
    try discriminate; try contradiction.
Qed.

(** X6: with a service-account key as the JSON argument and at least one
    scope, the key file is opened once, the default client info is used,
    and the credential store is called with the argument as key file. *)
Theorem service_account_route (env : Env) (args : Args) (cf : option string)
    (text : string) (items : list (string * value)) (info : ClientInfo) :
  json args <> "" ->
  open_file env (json args) = inr text ->
  json_loads env text = inr (JObj items) ->
  lookup "type" items = Some (JStr "service_account") ->
  result (GetDefaultClientInfo env) = inr info ->
  scope args <> [] ->
  exists rest : list event,
    trace (_FetchCredentials env args None cf) =
    EvOpen (json args)
    :: EvGetCredentials (_ExpandScopes (scope args))
         (or_str cf (credentials_filename args)) (json args) info
    :: rest /\
    forall path, ~ In (EvOpen path) rest.
Proof.
  intros Hj Ho Hl Hty Hd Hs.
  pose proof (ProcessJsonArgs_parsed env args text items Hj Ho Hl) as Hp.
  rewrite (proj2 (service_account_type items) Hty) in Hp.
  pose proof (GetDefaultClientInfo_trace env) as Ht.
  destruct (GetDefaultClientInfo env) as [r t] eqn:Ed.
  cbn [result trace fst snd] in Hd, Ht. subst r t.
  assert (Hc : client_info_or_flags env None "" = (inr info, [])).
  { cbn. exact Ed. }
  destruct (FetchCredentials_reaches_store env args None cf
              "" (json args) info _ _ Hp Hc Hs) as (rest & Hr & Hn).
  exists rest. split; [exact Hr | exact Hn].
Qed.

Lemma service_account_route_witness :
  exists rest : list event,
    trace (_FetchCredentials Keys.env
             (World.args CmdFetch "service.json" ["bigquery"] "") None None) =
    EvOpen "service.json"
    :: EvGetCredentials ["https://www.googleapis.com/auth/bigquery"]
         "" "service.json" World.default_info
    :: rest /\
    forall path, ~ In (EvOpen path) rest.
Proof.
  refine (service_account_route Keys.env
            (World.args CmdFetch "service.json" ["bigquery"] "") None
            Keys.service_key [("type", JStr "service_account")]
            World.default_info _ eq_refl eq_refl eq_refl eq_refl _);
    discriminate.
Defined.

(** X7: with installed-app client secrets as the JSON argument and at
    least one scope, the file is read twice, first under the name given
    and then under the name [expanduser] makes of it, and the credential
    store is called with no key file and with the id and secret found
    under 'installed' in the second reading. *)
Theorem client_secrets_route (env : Env) (args : Args) (cf : option string)
    (text text' : string) (items items' inst : list (string * value))
    (cid csecret : value) :
  json args <> "" ->
  open_file env (json args) = inr text ->
  json_loads env text = inr (JObj items) ->
  lookup "type" items <> Some (JStr "service_account") ->
  path_exists env (expanduser env (json args)) = true ->
  open_file env (expanduser env (json args)) = inr text' ->
  json_loads env text' = inr (JObj items') ->
  lookup "installed" items' = Some (JObj inst) ->
  lookup "client_id" inst = Some cid ->
  lookup "client_secret" inst = Some csecret ->
  scope args <> [] ->
  exists rest : list event,
    trace (_FetchCredentials env args None cf) =
    EvOpen (json args)
    :: EvOpen (expanduser env (json args))
    :: EvGetCredentials (_ExpandScopes (scope args))
         (or_str cf (credentials_filename args)) ""
         {| client_id := cid;
            client_secret := csecret;
            user_agent := "apitools/0.2 oauth2l/0.1" |}
    :: rest /\
    forall path, ~ In (EvOpen path) rest.
Proof.
  intros Hj Ho Hl Hty He Ho' Hl' Hi Hc Hcs Hs.
  pose proof (ProcessJsonArgs_parsed env args text items Hj Ho Hl) as Hp.
  destruct (eq_str _ "service_account") eqn:Ety in Hp.
  { apply service_account_type in Ety. contradiction. }
  assert (Hinfo : client_info_or_flags env None (json args) =
    (inr {| client_id := cid; client_secret := csecret;
            user_agent := "apitools/0.2 oauth2l/0.1" |},
     [EvOpen (expanduser env (json args))])).
  { unfold client_info_or_flags, GetClientInfoFromFlags, open_read, call,
      loads.
    rewrite (str_truthy_nonempty _ Hj), He, Ho'.
    cbn [negb from_IOError bind]. rewrite Hl'.
    cbn [from_ValueError lift bind contains getitem]. rewrite Hi.
    cbn [negb bind getitem]. rewrite Hc. cbn [bind]. rewrite Hcs.
    reflexivity. }
  destruct (FetchCredentials_reaches_store env args None cf
              (json args) "" _ _ _ Hp Hinfo Hs) as (rest & Hr & Hn).
  exists rest. split; [exact Hr | exact Hn].
Qed.

Lemma client_secrets_route_witness :
  exists rest : list event,
    trace (_FetchCredentials Keys.env
             (World.args CmdHeader "~/installed.json" ["drive"] "")
             None None) =
    EvOpen "~/installed.json"
    :: EvOpen "/home/user/installed.json"
    :: EvGetCredentials ["https://www.googleapis.com/auth/drive"] "" ""
         Keys.my_info
    :: rest /\
    forall path, ~ In (EvOpen path) rest.
Proof.
  refine (client_secrets_route Keys.env
            (World.args CmdHeader "~/installed.json" ["drive"] "") None
            Keys.installed_secrets Keys.installed_secrets
            [("installed",
              JObj [("client_id", JStr "my-id");
                    ("client_secret", JStr "my-secret")])]
            [("installed",
              JObj [("client_id", JStr "my-id");
                    ("client_secret", JStr "my-secret")])]
            [("client_id", JStr "my-id"); ("client_secret", JStr "my-secret")]
            (JStr "my-id") (JStr "my-secret")
            _ eq_refl eq_refl _ eq_refl eq_refl eq_refl eq_refl eq_refl
            eq_refl _); discriminate.
Defined.

(** ** Client info *)

Lemma getitem_inr (v : value) (k : string) (x : value) :
  getitem v k = inr x ->
  exists items, v = JObj items /\ lookup k items = Some x.
Proof.
  destruct v; try discriminate. cbn.
  destruct (lookup k items) as [y |] eqn:E; [| discriminate].
  intros [= <-]. now exists items.
Qed.

(** What the shared tail of the two client-info readers returns. *)
Lemma installed_section (parsed : value) (info : ClientInfo) :
  result (client_secrets <- lift (getitem parsed "installed") ;;
          cid <- lift (getitem client_secrets "client_id") ;;
          csecret <- lift (getitem client_secrets "client_secret") ;;
          ret {| client_id := cid;
                 client_secret := csecret;
                 user_agent := "apitools/0.2 oauth2l/0.1" |}) = inr info ->
  exists items inst : list (string * value),
    parsed = JObj items /\
    lookup "installed" items = Some (JObj inst) /\
    lookup "client_id" inst = Some (client_id info) /\
    lookup "client_secret" inst = Some (client_secret info) /\
    user_agent info = "apitools/0.2 oauth2l/0.1".
Proof.
  unfold lift, result.
  destruct (getitem parsed "installed") as [e | instv] eqn:E1;
    [discriminate |]. cbn [bind].
  destruct (getitem instv "client_id") as [e | cid] eqn:E2;
    [discriminate |]. cbn [bind].
  destruct (getitem instv "client_secret") as [e | cs] eqn:E3;
    [discriminate |]. cbn. intros [= <-].
  apply getitem_inr in E1 as (items & -> & Hi).
  apply getitem_inr in E2 as (inst & -> & Hc).
  apply getitem_inr in E3 as (inst' & [= <-] & Hs).
  exists items, inst. auto.
Qed.

Lemma result_bind {A B : Type} (m : M A) (k : A -> M B) :
  result (bind m k) =
  match result m with
  | inl e => inl e
  | inr a => result (k a)
  end.
Proof.
  destruct m as [[e | a] t]; cbn; [reflexivity |].
  now destruct (k a).
Qed.

Lemma result_lift {A : Type} (r : exn + A) : result (lift r) = r.
Proof. reflexivity. Qed.

Lemma result_call {A : Type} (ev : event) (r : exn + A) :
  result (call ev r) = r.
Proof. reflexivity. Qed.

(** X8: client info that [GetClientInfoFromFlags] returns was read from
    the 'installed' dict of a JSON object: its id and secret are the
    values under 'client_id' and 'client_secret' there, and its user agent
    is 'apitools/0.2 oauth2l/0.1'.  The object is the package data when no
    client-secrets name is given, and else the file that [expanduser]
    names, which exists. *)
Theorem client_info_source (env : Env) (client_secrets : string)
    (info : ClientInfo) :
  result (GetClientInfoFromFlags env client_secrets) = inr info ->
  exists (text : string) (items inst : list (string * value)),
    json_loads env text = inr (JObj items) /\
    lookup "installed" items = Some (JObj inst) /\
    lookup "client_id" inst = Some (client_id info) /\
    lookup "client_secret" inst = Some (client_secret info) /\
    user_agent info = "apitools/0.2 oauth2l/0.1" /\
    ((client_secrets = "" /\
      exists b, get_data env = inr (Some b) /\ utf8_decode env b = inr text) \/
     (client_secrets <> "" /\
      path_exists env (expanduser env client_secrets) = true /\
      open_file env (expanduser env client_secrets) = inr text)).
Proof.
  unfold GetClientInfoFromFlags, str_truthy.
  destruct (String.eqb_spec client_secrets "") as [Hc | Hc]; cbn [negb].
  - unfold GetDefaultClientInfo. rewrite result_bind, result_lift.
    destruct (get_data env) as [e | [b |]] eqn:Eg; try discriminate.
    destruct (utf8_decode env b) as [msg | text] eqn:Ed; [discriminate |].
    cbn [from_ValueError]. rewrite result_bind, result_lift. unfold loads.
    destruct (json_loads env text) as [msg | parsed] eqn:El;
      [discriminate |].
    cbn [from_ValueError]. intros H.
    apply installed_section in H as (items & inst & -> & Hi & H1 & H2 & H3).
    exists text, items, inst. repeat (split; [assumption |]).
    left. split; [exact Hc |]. now exists b.
  - destruct (path_exists env (expanduser env client_secrets)) eqn:Ep;
      cbn [negb]; [| discriminate].
    unfold open_read. rewrite result_bind, result_call.
    destruct (open_file env (expanduser env client_secrets))
      as [msg | text] eqn:Eo; [discriminate |].
    cbn [from_IOError]. rewrite result_bind, result_lift. unfold loads.
    destruct (json_loads env text) as [msg | parsed] eqn:El;
      [discriminate |].
    cbn [from_ValueError]. rewrite result_bind, result_lift.
    destruct (contains "installed" parsed) as [e | b]; [discriminate |].
    destruct b; cbn [negb]; [| discriminate]. intros H.
    apply installed_section in H as (items & inst & -> & Hi & H1 & H2 & H3).
    exists text, items, inst. repeat (split; [assumption |]).
    right. auto.
Qed.

Lemma client_info_source_witness :
  exists (text : string) (items inst : list (string * value)),
    json_loads Keys.env text = inr (JObj items) /\
    lookup "installed" items = Some (JObj inst) /\
    lookup "client_id" inst = Some (JStr "my-id") /\
    lookup "client_secret" inst = Some (JStr "my-secret") /\
    user_agent Keys.my_info = "apitools/0.2 oauth2l/0.1" /\
    (("~/installed.json" = "" /\
      exists b, get_data Keys.env = inr (Some b) /\
                utf8_decode Keys.env b = inr text) \/
     ("~/installed.json" <> "" /\
      path_exists Keys.env (expanduser Keys.env "~/installed.json") = true /\
      open_file Keys.env (expanduser Keys.env "~/installed.json") = inr text)).
Proof.
  exact (client_info_source Keys.env "~/installed.json" Keys.my_info eq_refl).
Defined.

(** X9: how [GetClientInfoFromFlags] rejects a client-secrets name.  If
    the expanded path does not exist, it raises ValueError 'Cannot find
    file: ' with the name as given, and opens nothing.  If the file is a
    JSON object without 'installed', it raises ValueError 'Provided client
    ID must be for an installed app'.  If 'installed' is a dict without
    'client_id', it raises KeyError. *)
Theorem GetClientInfoFromFlags_rejects (env : Env) (client_secrets : string) :
  client_secrets <> "" ->
  (path_exists env (expanduser env client_secrets) = false ->
   GetClientInfoFromFlags env client_secrets =
   (inl (ValueError ("Cannot find file: " ++ client_secrets)), [])) /\
  (forall (text : string) (items : list (string * value)),
     path_exists env (expanduser env client_secrets) = true ->
     open_file env (expanduser env client_secrets) = inr text ->
     json_loads env text = inr (JObj items) ->
     (lookup "installed" items = None ->
      GetClientInfoFromFlags env client_secrets =
      (inl (ValueError "Provided client ID must be for an installed app"),
       [EvOpen (expanduser env client_secrets)])) /\
     (forall inst : list (string * value),
        lookup "installed" items = Some (JObj inst) ->
        lookup "client_id" inst = None ->
        GetClientInfoFromFlags env client_secrets =
        (inl (KeyError "client_id"),
         [EvOpen (expanduser env client_secrets)]))).
Proof.
  intros Hc. unfold GetClientInfoFromFlags.
  rewrite (str_truthy_nonempty _ Hc). split.
  - intros ->. reflexivity.
  - intros text items -> Ho Hl. unfold open_read, call, loads.
    rewrite Ho. cbn [negb from_IOError bind]. rewrite Hl.
    cbn [from_ValueError lift bind contains getitem]. split.
    + intros ->. reflexivity.
    + intros inst -> Hn. cbn [negb bind getitem]. now rewrite Hn.
Qed.

Lemma GetClientInfoFromFlags_rejects_witness :
  GetClientInfoFromFlags World.env "client_secrets.json" =
  (inl (KeyError "client_id"), [EvOpen "client_secrets.json"]).
Proof.
  refine (proj2 (proj2 (GetClientInfoFromFlags_rejects World.env
                          "client_secrets.json" _)
                   World.secrets_without_id [("installed", JObj [])]
                   eq_refl eq_refl eq_refl)
            [] eq_refl eq_refl).
  discriminate.
Defined.

(** ** Formatting *)


(** ** The command handlers *)

(** X12: [_Header] is [_Fetch] with the format 'header', in any letter
    case. *)
Theorem Header_is_Fetch_header (env : Env) (args : Args) :
  lower (credentials_format args) = "header" ->
  _Fetch env args = _Header env args.
Proof.
  intros H. unfold _Fetch, _Header. now rewrite H.
Qed.

Lemma Header_is_Fetch_header_witness :
  _Fetch World.env
    {| command := CmdFetch; credentials_filename := ""; json := "";
       credentials_format := "HEADER"; scope := ["bigquery"];
       format := "json"; arg_access_token := "" |} =
  _Header World.env
    {| command := CmdFetch; credentials_filename := ""; json := "";
       credentials_format := "HEADER"; scope := ["bigquery"];
       format := "json"; arg_access_token := "" |}.
Proof.
  exact (Header_is_Fetch_header World.env
           {| command := CmdFetch; credentials_filename := ""; json := "";
              credentials_format := "HEADER"; scope := ["bigquery"];
              format := "json"; arg_access_token := "" |} eq_refl).
Defined.

(** What [_Fetch] and [_Header] do with the outcome of the acquisition. *)
Lemma print_formatted_cases (env : Env) (args : Args) (kind : string) :
  (credentials <- _FetchCredentials env args None None ;;
   line <- lift (_Format env kind credentials) ;;
   print line ;;;
   ret None) =
  match _FetchCredentials env args None None with
  | (inl e, t) => (inl e, t)
  | (inr c, t) =>
      match _Format env kind c with
      | inl e => (inl e, t)
      | inr line => (inr (@None Z), (t ++ [EvPrint line])%list)
      end
  end.
Proof.
  destruct (_FetchCredentials env args None None) as [[e | c] t];
    [reflexivity |].
  cbn [bind]. unfold lift.
  destruct (_Format env kind c) as [e | line]; cbn; [| reflexivity].
  now rewrite app_nil_r.
Qed.

(** The format kind a fetch or header command renders. *)
Lemma fetch_header_cases (env : Env) (args : Args) :
  command args = CmdFetch \/ command args = CmdHeader ->
  func env args =
  match _FetchCredentials env args None None with
  | (inl e, t) => (inl e, t)
  | (inr c, t) =>
      match _Format env (match command args with
                         | CmdFetch => lower (credentials_format args)
                         | _ => "header"
                         end) c with
      | inl e => (inl e, t)
      | inr line => (inr (@None Z), (t ++ [EvPrint line])%list)
      end
  end.
Proof.
  unfold func, _Fetch, _Header.
  intros [-> | ->]; apply print_formatted_cases.
Qed.

Lemma info_test_trace (env : Env) (args : Args) :
  command args = CmdInfo \/ command args = CmdTest ->
  exists rest : list event,
    trace (func env args) =
    EvRequest (_OAUTH2_TOKENINFO_TEMPLATE (arg_access_token args)) :: rest /\
    (rest = [] \/ exists line, rest = [EvPrint line]).
Proof.
  unfold func, _Info, _Test, _TestToken. intros [-> | ->];
    introspect env (arg_access_token args) ti t E; cbn [bind].
  - exists []. auto.
  - destruct (negb (truthy ti)); [exists []; auto |].
    destruct (String.eqb (format args) "json"); cbn; eauto.
  - exists []. auto.
  - exists []. auto.
Qed.

(** What a handler prints before it returns or raises: it calls [print]
    at most once, and not at all when it raises. *)
Lemma func_stdout (env : Env) (args : Args) :
  (length (stdout (trace (func env args))) <= 1)%nat /\
  (forall e, result (func env args) = inl e ->
             stdout (trace (func env args)) = []).
Proof.
  destruct (command args) eqn:Ec.
  1, 2: rewrite fetch_header_cases by (rewrite Ec; auto);
    pose proof (FetchCredentials_silent env args None None) as Hs;
    destruct (_FetchCredentials env args None None) as [[e | c] t];
    cbn [trace snd] in Hs;
    [ cbn; rewrite Hs; split; [cbn; lia | reflexivity]
    | destruct (_Format env _ c) as [e | line]; cbn [trace snd result fst];
      [ rewrite Hs; split; [cbn; lia | reflexivity]
      | rewrite stdout_app, Hs; split; [cbn; lia | discriminate] ] ].
  - unfold func. rewrite Ec. unfold _Info.
    introspect env (arg_access_token args) ti t E; cbn [bind].
    + split; [cbn; lia | reflexivity].
    + destruct (negb (truthy ti)); [split; [cbn; lia | discriminate] |].
      destruct (String.eqb (format args) "json"); cbn;
        (split; [lia | discriminate]).
  - unfold func. rewrite Ec. unfold _Test, _TestToken.
    introspect env (arg_access_token args) ti t E; cbn.
    + split; [lia | reflexivity].
    + split; [lia | discriminate].
Qed.

(** X13: whatever the command and the world, the process exits with 0 or
    1 and calls [print] at most once.  When the handler raises, the exit
    status is 1 and the only [print] call is the one of [main]'s handler,
    with the text 'Error encountered in <command> operation: <str(e)>';
    the handler itself has printed nothing before it. *)
Theorem main_exit_and_output (env : Env) (args : Args) :
  (process_exit env args = 0%Z \/ process_exit env args = 1%Z) /\
  (length (stdout (trace (main env args))) <= 1)%nat /\
  (forall e : exn,
     result (func env args) = inl e ->
     process_exit env args = 1%Z /\
     stdout (trace (main env args)) =
     ["Error encountered in " ++ command_name (command args)
      ++ " operation: " ++ str_exn env e]).
Proof.
  destruct (func_stdout env args) as [Hlen Herr].
  assert (Hcode : forall code t, func env args = (inr code, t) ->
                                 code = None \/ code = Some 0%Z \/
                                 code = Some 1%Z).
  { intros code t. destruct (command args) eqn:Ec.
    1, 2: rewrite fetch_header_cases by (rewrite Ec; auto);
      destruct (_FetchCredentials env args None None) as [[e | c] t0];
      [discriminate |];
      destruct (_Format env _ c); [discriminate |];
      intros [= <- _]; auto.
    - unfold func. rewrite Ec. unfold _Info.
      destruct (_GetTokenInfo env _) as [[e | ti] t0]; cbn [bind];
        [discriminate |].
      destruct (negb (truthy ti)); [intros [= <- _]; auto |].
      destruct (String.eqb (format args) "json"); cbn; intros [= <- _]; auto.
    - unfold func. rewrite Ec. unfold _Test, _TestToken.
      destruct (_GetTokenInfo env _) as [[e | ti] t0]; cbn;
        [discriminate |].
      destruct (truthy ti); intros [= <- _]; auto. }
  unfold process_exit, main.
  destruct (func env args) as [[e | code] t] eqn:Ef;
    cbn [result trace fst snd] in *; cbn [catch print bind ret result trace
                                            fst snd exit_status].
  - specialize (Herr e eq_refl).
    rewrite stdout_app, Herr. cbn.
    split; [now right |]. split; [lia |].
    intros e' [= <-]. auto.
  - split.
    + destruct (Hcode code t eq_refl) as [-> | [-> | ->]]; cbn; auto.
    + split; [exact Hlen | discriminate].
Qed.



(** X15: the info and test commands contact nothing but the token-info
    endpoint, once and before anything is printed, and their whole outcome
    depends on the arguments only through the access token and the
    format: the JSON argument, the cache file name and the scopes are
    ignored. *)
Theorem info_test_only_introspect (env : Env) (args : Args) :
  command args = CmdInfo \/ command args = CmdTest ->
  (exists rest : list event,
     trace (main env args) =
     EvRequest (_OAUTH2_TOKENINFO_TEMPLATE (arg_access_token args)) :: rest /\
     (rest = [] \/ exists line, rest = [EvPrint line])) /\
  (forall args' : Args,
     command args' = command args ->
     arg_access_token args' = arg_access_token args ->
     format args' = format args ->
     main env args' = main env args).
Proof.
  intros Hc. split.
  - destruct (info_test_trace env args Hc) as (rest & Ht & Hrest).
    pose proof (func_stdout env args) as [_ Herr].
    unfold main.
    destruct (func env args) as [[e | code] t]; cbn [trace snd] in *.
    + specialize (Herr e eq_refl). subst t.
      destruct Hrest as [-> | [line ->]]; [| discriminate].
      cbn. eexists. split; [reflexivity |]. right. now eexists.
    + exists rest. cbn. auto.
  - intros args' Hc' Ha Hf. unfold main, func, _Info, _Test.
    rewrite Hc', Ha, Hf. destruct Hc as [-> | ->]; reflexivity.
Qed.

Lemma info_test_only_introspect_witness :
  main World.env
    {| command := CmdTest; credentials_filename := "cache.dat";
       json := "missing.json"; credentials_format := "bare";
       scope := ["drive"]; format := "json";
       arg_access_token := "ya29.live" |} =
  main World.env (World.args CmdTest "" [] "ya29.live").
Proof.
  exact (proj2 (info_test_only_introspect World.env
                  (World.args CmdTest "" [] "ya29.live") (or_intror eq_refl))
           {| command := CmdTest; credentials_filename := "cache.dat";
              json := "missing.json"; credentials_format := "bare";
              scope := ["drive"]; format := "json";
              arg_access_token := "ya29.live" |}
           eq_refl eq_refl eq_refl).
Defined.

Lemma main_exit_and_output_witness :
  process_exit World.env (World.args CmdTest "" [] "ya29.unavailable") = 1%Z /\
  stdout (trace (main World.env (World.args CmdTest "" [] "ya29.unavailable")))
  = ["Error encountered in test operation: <str(e)>"].
Proof.
  exact (proj2 (proj2 (main_exit_and_output World.env
                         (World.args CmdTest "" [] "ya29.unavailable")))
           (HttpError {| status_code := 503;
                         content := Text "Service Unavailable" |})
           eq_refl).
Defined.


(** ** Introspection, read backwards *)


